(** * Rayyan screening automation: a model of [main.py] and
      [resolve_duplicates.py], and the properties of its specification.

    The two scripts are Python coroutines that talk to three outside
    parties: the Rayyan platform (fetch, POST, PATCH), the Gemini
    reasoning service and the local file system.  The model below keeps
    the code's own shape:

    - values that come out of [json.loads] are the type [json]; a Python
      [dict] is an association list read by its first binding;
    - Python text is a [string] over 8-bit characters (code points 0-255);
    - numbers are the integers ([Z]); floating-point literals are outside
      the modelled fragment;
    - a coroutine is a function from the trace of remote calls made so far
      to an outcome (a value or a raised exception) and the extended trace;
    - the outside parties are the fields of one record, [env]; each remote
      answer may depend on the whole history of calls;
    - [print] writes to the console and raises [UnicodeEncodeError] on a
      text the console cannot encode.  The console is taken to show the
      scripts' own words (ASCII, and the two emoji of
      [resolve_duplicates.py]) and the ids and titles of the platform's
      records; a [print] that shows a value taken from the oracle's answer
      is kept as a step of the coroutine, which raises when that value
      does not print. *)

From Stdlib Require Import List String Ascii ZArith Bool Lia Permutation.
From Stdlib Require Import DecimalString.
Import ListNotations.

Set Warnings "-register-all".

Open Scope string_scope.
Open Scope list_scope.
Open Scope Z_scope.

(** ** JSON values as Python objects *)

Inductive json : Type :=
| JNull
| JBool (b : bool)
| JNum (z : Z)
| JStr (s : string)
| JArr (l : list json)
| JObj (kv : list (string * json)).

(** Python exceptions that the two scripts can meet.  All of them derive
    from [Exception], so [except Exception] catches each one. *)
Inductive exn : Type :=
| AttributeError
| KeyError
| IndexError
| TypeError
| JSONDecodeError
| ServiceError
| UnicodeEncodeError.

Inductive outcome (A : Type) : Type :=
| Ret (a : A)
| Raise (e : exn).
Arguments Ret {A} a.
Arguments Raise {A} e.

(** [bool(v)]: the truth value Python gives an object in [if v] and
    [not v]. *)
Definition truthy (v : json) : bool :=
  match v with
  | JNull => false
  | JBool b => b
  | JNum z => negb (z =? 0)
  | JStr s => negb (s =? "")%string
  | JArr l => match l with [] => false | _ :: _ => true end
  | JObj kv => match kv with [] => false | _ :: _ => true end
  end.

Fixpoint dict_lookup (kv : list (string * json)) (k : string) : option json :=
  match kv with
  | [] => None
  | (k', v) :: rest => if (k' =? k)%string then Some v else dict_lookup rest k
  end.

(** [d.get(k, default)] *)
Definition py_get (d : json) (k : string) (default : json) : outcome json :=
  match d with
  | JObj kv => Ret (match dict_lookup kv k with Some v => v | None => default end)
  | _ => Raise AttributeError
  end.

(** [d[k]] with a string key *)
Definition py_item (d : json) (k : string) : outcome json :=
  match d with
  | JObj kv => match dict_lookup kv k with Some v => Ret v | None => Raise KeyError end
  | _ => Raise TypeError
  end.

(** [len(v)] *)
Definition py_len (v : json) : outcome Z :=
  match v with
  | JArr l => Ret (Z.of_nat (List.length l))
  | JStr s => Ret (Z.of_nat (String.length s))
  | JObj kv => Ret (Z.of_nat (List.length kv))
  | _ => Raise TypeError
  end.

(** [v[0]] *)
Definition py_index0 (v : json) : outcome json :=
  match v with
  | JArr (x :: _) => Ret x
  | JArr [] => Raise IndexError
  | JStr (String c _) => Ret (JStr (String c EmptyString))
  | JStr EmptyString => Raise IndexError
  | JObj _ => Raise KeyError
  | _ => Raise TypeError
  end.

(** [v == s] for a string literal [s] *)
Definition py_eq_str (v : json) (s : string) : bool :=
  match v with
  | JStr t => (t =? s)%string
  | _ => false
  end.

(** ** Text primitives: [str.strip], [str.replace(old, "")], [in],
       [str.lower], [str.startswith] *)

(** [str.isspace] on the code points 0-255 *)
Definition is_space (c : ascii) : bool :=
  let n := nat_of_ascii c in
  ((9 <=? n) && (n <=? 13) || (28 <=? n) && (n <=? 32)
   || (n =? 133) || (n =? 160))%nat.

Fixpoint lstrip (s : string) : string :=
  match s with
  | EmptyString => EmptyString
  | String c rest => if is_space c then lstrip rest else s
  end.

Fixpoint rstrip (s : string) : string :=
  match s with
  | EmptyString => EmptyString
  | String c rest =>
      match rstrip rest with
      | EmptyString => if is_space c then EmptyString else String c EmptyString
      | r => String c r
      end
  end.

Definition strip (s : string) : string := rstrip (lstrip s).

Fixpoint starts_with (p s : string) : bool :=
  match p, s with
  | EmptyString, _ => true
  | String a p', String b s' => Ascii.eqb a b && starts_with p' s'
  | String _ _, EmptyString => false
  end.

(** [p in s] for two strings *)
Fixpoint contains (p s : string) : bool :=
  starts_with p s ||
  match s with
  | EmptyString => false
  | String _ s' => contains p s'
  end.

(** [s.replace(old, "")] for a non-empty [old]: occurrences are removed
    left to right without overlap.  [skip] counts the characters of the
    occurrence under removal that are still to be dropped. *)
Fixpoint remove_from (old : string) (skip : nat) (s : string) : string :=
  match s with
  | EmptyString => EmptyString
  | String c rest =>
      match skip with
      | S k => remove_from old k rest
      | O => if starts_with old s
             then remove_from old (String.length old - 1) rest
             else String c (remove_from old O rest)
      end
  end.

Definition remove_all (old s : string) : string := remove_from old O s.

(** [str.lower] on the code points 0-255 *)
Definition lower_char (c : ascii) : ascii :=
  let n := nat_of_ascii c in
  if ((65 <=? n) && (n <=? 90)
      || (192 <=? n) && (n <=? 222) && negb (n =? 215))%nat
  then ascii_of_nat (n + 32) else c.

Fixpoint lower (s : string) : string :=
  match s with
  | EmptyString => EmptyString
  | String c rest => String (lower_char c) (lower rest)
  end.

(** The triple backquote of a markdown fence *)
Definition fence : string := "```".
Definition fence_json : string := "```json".

(** [text.strip().replace("```json", "").replace("```", "").strip()],
    the clean-up both scripts apply to the oracle's text *)
Definition clean_response (text : string) : string :=
  strip (remove_all fence (remove_all fence_json (strip text))).

(** ** Iteration and membership on Python objects *)

Fixpoint chars (s : string) : list json :=
  match s with
  | EmptyString => []
  | String c rest => JStr (String c EmptyString) :: chars rest
  end.

(** [for x in v]: the items a [for] loop visits *)
Definition py_iter (v : json) : outcome (list json) :=
  match v with
  | JArr l => Ret l
  | JStr s => Ret (chars s)
  | JObj kv => Ret (map (fun p => JStr (fst p)) kv)
  | _ => Raise TypeError
  end.

(** [s in v] for a string literal [s] *)
Definition py_in (s : string) (v : json) : outcome bool :=
  match v with
  | JObj kv => Ret (match dict_lookup kv s with Some _ => true | None => false end)
  | JArr l => Ret (existsb (fun x => py_eq_str x s) l)
  | JStr t => Ret (contains s t)
  | _ => Raise TypeError
  end.

(** [v[:70]]: only strings and lists can be sliced *)
Definition py_slice (v : json) : outcome unit :=
  match v with
  | JStr _ | JArr _ => Ret tt
  | _ => Raise TypeError
  end.

(** ** The outside world *)

(** The two prompt templates.  [ScreeningPrompt t a] stands for the text
    [create_ai_prompt] builds around the fixed criteria, [DuplicatePrompt]
    for the f-string of [are_abstracts_duplicates]; the code never looks
    inside a prompt, so only the interpolated fields are kept. *)
Inductive prompt : Type :=
| ScreeningPrompt (article_title article_abstract : json)
| DuplicatePrompt (abstract1 abstract2 : json).

(** What [client.models.generate_content] does: it raises, or it returns
    a response whose [text] is [None] or a string. *)
Inductive reply : Type :=
| CallFails
| Text (text : option string).

(** A Playwright [APIResponse] *)
Record response : Type := mkResponse {
  status : Z;
  ok : bool;
  body : string
}.

(** Remote calls, in the order they are made.  [ESearch] is
    [api_context.fetch(.../results, method="SEARCH", data=payload)],
    [EPost] is the POST to [.../customize], [EPatch id payload] the PATCH
    to [.../duplicates/{id}], [ESleep] is [asyncio.sleep]. *)
Inductive event : Type :=
| EGenerate (model : string) (contents : prompt)
| ESearch (payload : json)
| EPost (payload : json)
| EPatch (article_id : json) (payload : json)
| ESleep (seconds : Z).

Definition trace : Type := list event.

(** The Python runtime functions and the remote services the scripts
    call.  [json_loads s = None] when [json.loads] raises; [py_repr] is
    [repr] on values that are not strings; [new_context auth headers] is
    [p.request.new_context(storage_state=AUTH_FILE,
    extra_http_headers=headers)] on the content of the auth file, which
    returns or raises; [stdout_encodes s] tells whether the encoding of
    [sys.stdout] takes a text [s] that is not plain ASCII (a UTF-8 console
    refuses a lone surrogate, which [json.loads] makes of an escape such
    as [\ud83d]). *)
Record env : Type := mkEnv {
  json_loads : string -> option json;
  py_repr : json -> string;
  new_context : string -> json -> outcome unit;
  stdout_encodes : string -> bool;
  generate_content : trace -> string -> prompt -> reply;
  api_fetch : trace -> json -> option response
}.

(** ** Coroutines: trace passing with exceptions *)

Definition task (A : Type) : Type := trace -> outcome A * trace.

Definition ret {A} (a : A) : task A := fun tr => (Ret a, tr).
Definition raise {A} (e : exn) : task A := fun tr => (Raise e, tr).
Definition lift {A} (o : outcome A) : task A := fun tr => (o, tr).
Definition emit (e : event) : task unit := fun tr => (Ret tt, tr ++ [e]).

Definition bind {A B} (m : task A) (k : A -> task B) : task B :=
  fun tr =>
    match m tr with
    | (Ret a, tr') => k a tr'
    | (Raise e, tr') => (Raise e, tr')
    end.

Definition obind {A B} (m : outcome A) (k : A -> outcome B) : outcome B :=
  match m with
  | Ret a => k a
  | Raise e => Raise e
  end.

(** [try: body except Exception: handler] *)
Definition try_except {A} (body : task A) (handler : exn -> task A) : task A :=
  fun tr =>
    match body tr with
    | (Ret a, tr') => (Ret a, tr')
    | (Raise e, tr') => handler e tr'
    end.

Notation "x <- m ;; k" := (bind m (fun x => k))
  (at level 61, m at next level, right associativity).
Notation "m ;;; k" := (bind m (fun _ => k))
  (at level 61, right associativity).
Notation "'let?' x := m 'in' k" := (obind m (fun x => k))
  (at level 61, x name, m at next level, right associativity).

(** [for x in l: f(x)] *)
Fixpoint for_each {A} (f : A -> task unit) (l : list A) : task unit :=
  match l with
  | [] => ret tt
  | x :: rest => f x ;;; for_each f rest
  end.

Definition sleep (seconds : Z) : task unit := emit (ESleep seconds).

(** f-string interpolation [{v}]: a string is inserted as it is, any
    other value through [repr]. *)
Definition fmt (E : env) (v : json) : string :=
  match v with
  | JStr s => s
  | _ => py_repr E v
  end.

(** ** [print] of a value that the oracle supplied *)

Fixpoint is_ascii (s : string) : bool :=
  match s with
  | EmptyString => true
  | String c rest => (nat_of_ascii c <? 128)%nat && is_ascii rest
  end.

(** Every console encodes ASCII; for other text its encoding decides. *)
Definition text_prints (E : env) (s : string) : bool :=
  is_ascii s || stdout_encodes E s.

(** Can the console show [{v}]?  [None], a boolean and an integer are
    written in ASCII; a string is written as it is, a list or a dict
    through [repr]. *)
Definition prints_ok (E : env) (v : json) : bool :=
  match v with
  | JNull | JBool _ | JNum _ => true
  | _ => text_prints E (fmt E v)
  end.

(** One [print] whose line shows the values [vs] *)
Definition print_values (E : env) (vs : list json) : task unit :=
  if forallb (prints_ok E) vs then ret tt else raise UnicodeEncodeError.

(** ** [main.py]: the classification oracle *)

Definition screening_model : string := "gemini-2.5-flash-lite-preview-06-17".

Definition decision_dict (decision reason : string) : json :=
  JObj [("decision", JStr decision); ("reason", JStr reason)].

Definition missing_data : json := decision_dict "exclude" "Missing Data".
Definition ai_empty_response : json := decision_dict "maybe" "AI Empty Response".
Definition ai_format_error : json := decision_dict "maybe" "AI Format Error".
Definition api_call_error : json := decision_dict "maybe" "API Call Error".

(** [main.py] lines 83-85: the first abstract's content, or [""] *)
Definition read_abstract (article : json) : outcome json :=
  let? abstracts := py_get article "abstracts" JNull in
  if truthy abstracts then
    let? abstracts1 := py_item article "abstracts" in
    let? n := py_len abstracts1 in
    if 0 <? n then
      let? abstracts2 := py_item article "abstracts" in
      let? first := py_index0 abstracts2 in
      py_get first "content" (JStr "")
    else Ret (JStr "")
  else Ret (JStr "").

(** One call of [client.models.generate_content] *)
Definition ask (E : env) (model : string) (contents : prompt) : task reply :=
  fun tr => (Ret (generate_content E tr model contents),
             tr ++ [EGenerate model contents]).

(** [json.loads(s)] *)
Definition loads (E : env) (s : string) : outcome json :=
  match json_loads E s with
  | Some v => Ret v
  | None => Raise JSONDecodeError
  end.

(** [d in ['include', 'exclude']] *)
Definition is_include_or_exclude (d : json) : bool :=
  py_eq_str d "include" || py_eq_str d "exclude".

(** [main.py] lines 106-108: the [else] branch, whose message shows the
    oracle's cleaned text *)
Definition invalid_json_from_ai (E : env) (cleaned_response : string) : task json :=
  print_values E [JStr cleaned_response] ;;;
  ret ai_format_error.

(** [main.py] lines 94-108: the body of the [try] *)
Definition get_ai_decision_try (E : env) (title abstract : json) : task json :=
  r <- ask E screening_model (ScreeningPrompt title abstract) ;;
  match r with
  | CallFails => raise ServiceError
  | Text None => ret ai_empty_response
  | Text (Some text) =>
      let cleaned_response := clean_response text in
      decision_json <- lift (loads E cleaned_response) ;;
      has_decision <- lift (py_in "decision" decision_json) ;;
      if has_decision then
        d <- lift (py_item decision_json "decision") ;;
        if is_include_or_exclude d then ret decision_json
        else invalid_json_from_ai E cleaned_response
      else invalid_json_from_ai E cleaned_response
  end.

(** [main.py] lines 109-111: the handler; its message reads
    [article['id']] before the dict is returned. *)
Definition get_ai_decision_except (article : json) (e : exn) : task json :=
  _ <- lift (py_item article "id") ;;
  ret api_call_error.

Definition get_ai_decision (E : env) (article : json) : task json :=
  title <- lift (py_get article "title" (JStr "")) ;;
  abstract <- lift (read_abstract article) ;;
  if negb (truthy title) || negb (truthy abstract) then ret missing_data
  else try_except (get_ai_decision_try E title abstract)
                  (get_ai_decision_except article).

(** ** [main.py]: the decision writer *)

Definition plan1 (key : string) (value : Z) : json := JObj [(key, JNum value)].

Definition customize_payload (article_id plan : json) : json :=
  JObj [("article_id", article_id); ("plan", plan)].

(** [api_context.post(url, data=payload)]; the answer, or an exception of
    the call, only changes what is printed. *)
Definition post (payload : json) : task unit := emit (EPost payload).

(** [main.py] lines 116-140.  The payload is built and the branch's
    message printed before the [try] of line 135 is entered.  The messages
    of lines 120, 127 and 130 show the record's id and nothing else; the
    message of line 124 shows the reason as well, the one of line 132 the
    decision: these two are the [print_values] below, and a [print] that
    raises there leaves the function before any POST. *)
Definition update_article_status (E : env) (article_id decision reason : json)
  : task unit :=
  if py_eq_str decision "include" then
    post (customize_payload article_id (plan1 "included" 1))
  else if py_eq_str decision "exclude" then
    if truthy reason then
      let plan := plan1 (String.append "__EXR__" (fmt E reason)) 1 in
      print_values E [reason] ;;;
      post (customize_payload article_id plan)
    else
      post (customize_payload article_id (plan1 "included" (-1)))
  else if py_eq_str decision "maybe" then
    post (customize_payload article_id (plan1 "included" 0))
  else
    print_values E [decision] ;;;
    ret tt.

(** ** [main.py]: the record source *)

Definition undecided_payload (start length : Z) : json :=
  JObj [("start", JNum start); ("length", JNum length);
        ("order", JObj [("0", JObj [("dir", JStr "asc")])]);
        ("return_filtered_total", JStr "false");
        ("extra", JObj [("mode", JStr "undecided")])].

(** [fetch_undecided_articles]: the response, or [None] when the call
    raised. *)
Definition fetch_undecided_articles (E : env) (start length : Z)
  : task (option response) :=
  fun tr => let payload := undecided_payload start length in
            (Ret (api_fetch E tr payload), tr ++ [ESearch payload]).

(** [await response.json()] *)
Definition response_json (E : env) (r : response) : outcome json :=
  loads E (body r).

(** ** [main.py]: session validation (phase 1 of [main]) *)

(** The two persisted files: their content, [None] when the file does
    not exist. *)
Record files : Type := mkFiles {
  auth_file : option string;
  headers_file : option string
}.

(** [main.py] lines 198-213: the value of [should_run_setup] at line 214 *)
Definition should_run_setup (E : env) (fs : files) : task bool :=
  match auth_file fs, headers_file fs with
  | Some auth, Some text =>
      headers <- lift (loads E text) ;;
      _ <- lift (new_context E auth headers) ;;
      test_response <- fetch_undecided_articles E 0 1 ;;
      match test_response with
      | None => ret true
      | Some r => if status r =? 401 then ret true else ret false
      end
  | _, _ => ret true
  end.

(** ** [main.py]: the screening loop (phase 2 of [main]) *)

Definition batch_size : Z := 50.

(** [main.py] lines 239-254: one record of a batch.  The message of line
    241 shows the record's id and the slice [title[:70]]. *)
Definition process_article (E : env) (article : json) : task unit :=
  article_id <- lift (py_get article "id" JNull) ;;
  title <- lift (py_get article "title" (JStr "No Title")) ;;
  _ <- lift (py_slice title) ;;
  ai_result <- get_ai_decision E article ;;
  decision <- lift (py_get ai_result "decision" (JStr "maybe")) ;;
  reason <- lift (py_get ai_result "reason" JNull) ;;
  update_article_status E article_id decision reason ;;;
  sleep 6.

(** Why the [while True] loop was left through [break] *)
Inductive stop : Type :=
| FetchFailed
| NoMoreArticles.

(** [main.py] lines 226-256: one iteration; [inl] is a [break], [inr] the
    next value of [start_index]. *)
Definition loop_body (E : env) (start_index : Z) : task (stop + Z) :=
  response_obj <- fetch_undecided_articles E start_index batch_size ;;
  match response_obj with
  | None => ret (inl FetchFailed)
  | Some r =>
      if negb (ok r) then ret (inl FetchFailed)
      else
        data <- lift (response_json E r) ;;
        articles <- lift (py_get data "data" (JArr [])) ;;
        if negb (truthy articles) then ret (inl NoMoreArticles)
        else
          _ <- lift (py_len articles) ;;
          items <- lift (py_iter articles) ;;
          for_each (process_article E) items ;;;
          n <- lift (py_len articles) ;;
          ret (inr (start_index + n))
  end.

(** The state of a run of the loop: left through [break], stopped by an
    exception nobody catches, or still running when the fuel is spent. *)
Inductive run : Type :=
| Finished (why : stop) (start_index : Z) (tr : trace)
| Crashed (e : exn) (tr : trace)
| Running (start_index : Z) (tr : trace).

Fixpoint main_loop (E : env) (fuel : nat) (start_index : Z) (tr : trace) : run :=
  match fuel with
  | O => Running start_index tr
  | S fuel' =>
      match loop_body E start_index tr with
      | (Raise e, tr') => Crashed e tr'
      | (Ret (inl why), tr') => Finished why start_index tr'
      | (Ret (inr next), tr') => main_loop E fuel' next tr'
      end
  end.

(** ** [main.py]: header capture during the browser setup *)

Definition headers : Type := list (string * string).

Record request : Type := mkRequest {
  method : string;
  url : string;
  all_headers : headers
}.

(** The [asyncio] future of [perform_full_setup]: pending, resolved by
    [set_result], or cancelled by the time-out of [wait_for]. *)
Inductive future : Type :=
| Pending
| Resolved (result : headers)
| Cancelled.

Definition done (f : future) : bool :=
  match f with
  | Pending => false
  | _ => true
  end.

Definition target_url_part (review_id : string) : string :=
  String.append "/api/v1/reviews/" (String.append review_id "/results").

Definition is_target (review_id : string) (req : request) : bool :=
  (method req =? "SEARCH")%string && contains (target_url_part review_id) (url req).

(** The dict comprehension of lines 167-170 *)
Definition discovered_headers (h : headers) : headers :=
  filter (fun kv => starts_with "x-" (lower (fst kv))
                    || (lower (fst kv) =? "authorization")%string) h.

(** ['authorization' in (k.lower() for k in discovered_headers)] *)
Definition has_authorization (h : headers) : bool :=
  existsb (fun kv => (lower (fst kv) =? "authorization")%string) h.

(** [handle_request], from the point where [all_headers()] has answered:
    the block after that [await] runs without suspension.  The second
    component lists the calls of [future.set_result] (none or one). *)
Definition handle_request (review_id : string) (req : request) (f : future)
  : future * list headers :=
  if is_target review_id req then
    let discovered := discovered_headers (all_headers req) in
    if has_authorization discovered && negb (done f)
    then (Resolved discovered, [discovered])
    else (f, [])
  else (f, []).

(** The handler run on a sequence of requests, in the order in which
    their handlers get past the [await] *)
Fixpoint observe (review_id : string) (reqs : list request) (f : future)
  : future * list headers :=
  match reqs with
  | [] => (f, [])
  | req :: rest =>
      let (f1, sets1) := handle_request review_id req f in
      let (f2, sets2) := observe review_id rest f1 in
      (f2, sets1 ++ sets2)
  end.

(** ** [resolve_duplicates.py]: comparison and resolution *)

Definition duplicate_model : string := "gemini-2.0-flash-lite".

(** [resolve_duplicates.py] lines 34-38: the body of the [try] *)
Definition are_abstracts_duplicates_try (E : env) (abstract1 abstract2 : json)
  : task (json * json) :=
  r <- ask E duplicate_model (DuplicatePrompt abstract1 abstract2) ;;
  match r with
  | CallFails => raise ServiceError
  | Text None => ret (JBool false, JStr "AI returned no response.")
  | Text (Some text) =>
      let json_response_text := clean_response text in
      decision <- lift (loads E json_response_text) ;;
      is_duplicate <- lift (py_get decision "is_duplicate" (JBool false)) ;;
      reason <- lift (py_get decision "reason" (JStr "No reason provided.")) ;;
      ret (is_duplicate, reason)
  end.

Definition are_abstracts_duplicates (E : env) (abstract1 abstract2 : json)
  : task (json * json) :=
  if negb (truthy abstract1) || negb (truthy abstract2)
  then ret (JBool false, JStr "One or both abstracts were missing.")
  else try_except (are_abstracts_duplicates_try E abstract1 abstract2)
                  (fun _ => ret (JBool false, JStr "AI analysis failed.")).

Definition duplicate_payload (action : Z) : json :=
  JObj [("duplicate_action", JNum action); ("isDeletedArticle", JBool false)].

(** [resolve_duplicate_status]; as for [post], what the PATCH answers is
    only printed. *)
Definition resolve_duplicate_status (article_to_resolve_id is_duplicate : json)
  : task unit :=
  let action := if truthy is_duplicate then 1 else 2 in
  emit (EPatch article_to_resolve_id (duplicate_payload action)).

(** ** [resolve_duplicates.py]: grouping by cluster id *)

(** What a [dict] compares when it looks a key up: the integers (with
    [True] as 1 and [False] as 0), the strings and [None].  Lists and
    dicts are not hashable. *)
Inductive key : Type :=
| KNone
| KInt (z : Z)
| KStr (s : string).

Definition key_of (v : json) : option key :=
  match v with
  | JNull => Some KNone
  | JBool b => Some (KInt (Z.b2z b))
  | JNum z => Some (KInt z)
  | JStr s => Some (KStr s)
  | JArr _ | JObj _ => None
  end.

Definition key_eqb (a b : key) : bool :=
  match a, b with
  | KNone, KNone => true
  | KInt x, KInt y => x =? y
  | KStr s, KStr t => (s =? t)%string
  | _, _ => false
  end.

(** Is [k] the key of the entry [c] of the dict? *)
Definition has_key (k : key) (c : json * list json) : bool :=
  match key_of (fst c) with
  | Some k' => key_eqb k' k
  | None => false
  end.

(** A [defaultdict(list)] in insertion order: cluster id and members *)
Definition clusters : Type := list (json * list json).

(** [clusters[cluster_id].append(article)] for a hashable [cluster_id]
    whose key is [k] *)
Fixpoint cluster_append (cl : clusters) (cluster_id : json) (k : key)
  (article : json) : clusters :=
  match cl with
  | [] => [(cluster_id, [article])]
  | c :: rest =>
      if has_key k c then (fst c, snd c ++ [article]) :: rest
      else c :: cluster_append rest cluster_id k article
  end.

(** [article.get("dedup_results", {}).get("cluster_id")] *)
Definition cluster_id_of (article : json) : outcome json :=
  let? dedup_results := py_get article "dedup_results" (JObj []) in
  py_get dedup_results "cluster_id" JNull.

(** [resolve_duplicates.py] lines 106-109: one turn of the grouping loop *)
Definition group_step (cl : clusters) (article : json) : outcome clusters :=
  let? cluster_id := cluster_id_of article in
  if truthy cluster_id then
    match key_of cluster_id with
    | Some k => Ret (cluster_append cl cluster_id k article)
    | None => Raise TypeError
    end
  else Ret cl.

Fixpoint group_from (cl : clusters) (all_articles : list json) : outcome clusters :=
  match all_articles with
  | [] => Ret cl
  | article :: rest =>
      let? cl' := group_step cl article in
      group_from cl' rest
  end.

(** [resolve_duplicates.py] lines 105-109 *)
Definition group_by_cluster (all_articles : list json) : outcome clusters :=
  group_from [] all_articles.

(** ** [resolve_duplicates.py]: processing the clusters *)

(** Lines 125-126 and 133-134: [l[0].get("content", "") if l else ""]
    for [l = article.get("abstracts", [])] *)
Definition first_abstract (article : json) : outcome json :=
  let? abstract_list := py_get article "abstracts" (JArr []) in
  if truthy abstract_list then
    let? first := py_index0 abstract_list in
    py_get first "content" (JStr "")
  else Ret (JStr "").

(** Lines 132-145: the anchor against one other member.  Line 139 prints
    the verdict and its reason between the comparison and the PATCH. *)
Definition compare_member (E : env) (anchor_abstract other_article : json)
  : task unit :=
  other_id <- lift (py_get other_article "id" JNull) ;;
  other_abstract <- lift (first_abstract other_article) ;;
  verdict <- are_abstracts_duplicates E anchor_abstract other_abstract ;;
  let (is_dup, reason) := verdict in
  print_values E [is_dup; reason] ;;;
  resolve_duplicate_status other_id is_dup ;;;
  sleep 5.

(** Lines 116-145: one cluster *)
Definition process_cluster (E : env) (c : json * list json) : task unit :=
  let articles_in_cluster := snd c in
  if Z.of_nat (List.length articles_in_cluster) <? 2 then ret tt
  else
    match articles_in_cluster with
    | [] => raise IndexError
    | anchor_article :: others =>
        anchor_id <- lift (py_get anchor_article "id" JNull) ;;
        anchor_abstract <- lift (first_abstract anchor_article) ;;
        for_each (compare_member E anchor_abstract) others
    end.

(** Lines 103-145: grouping, then the clusters one after the other *)
Definition resolve_clusters (E : env) (all_articles : list json) : task unit :=
  cl <- lift (group_by_cluster all_articles) ;;
  for_each (process_cluster E) cl.

(** ** A concrete runtime for the examples

    [loads_text] reads the fragment of JSON without floating-point
    numbers, without the constants [NaN] and [Infinity], with integers of
    at most 4300 digits (the longest [int] accepts) and with the [\u]
    escapes of the code points 0-255 and of a surrogate that stands
    alone; on that fragment it answers as [json.loads] does, outside of it
    it fails.  The theorems below hold for every [json_loads]; the
    examples use this one.

    [json.loads] turns the escape of a lone surrogate, such as [\ud83d],
    into a string of that one code point, which no strict UTF-8 console
    can encode.  The characters of the model stop at 255, so [loads_text]
    writes a surrogate as the three characters under which the
    [surrogatepass] handler stores it: 237, then one of 160-191, then one
    of 128-191.  The examples use that sequence for nothing else. *)

Definition dquote : ascii := ascii_of_nat 34.
Definition backslash : ascii := ascii_of_nat 92.

Definition is_json_ws (c : ascii) : bool :=
  let n := nat_of_ascii c in
  ((n =? 32) || (n =? 9) || (n =? 10) || (n =? 13))%nat.

Definition is_digit (c : ascii) : bool :=
  let n := nat_of_ascii c in ((48 <=? n) && (n <=? 57))%nat.

Definition digit_value (c : ascii) : Z := Z.of_nat (nat_of_ascii c - 48).

Fixpoint skip_ws (s : string) : string :=
  match s with
  | String c rest => if is_json_ws c then skip_ws rest else s
  | EmptyString => s
  end.

Fixpoint drop (n : nat) (s : string) : string :=
  match n, s with
  | S n', String _ rest => drop n' rest
  | _, _ => s
  end.

Definition unescape (c : ascii) : option ascii :=
  let n := nat_of_ascii c in
  if (n =? 34)%nat then Some c              (* quote *)
  else if (n =? 92)%nat then Some c         (* backslash *)
  else if (n =? 47)%nat then Some c         (* slash *)
  else if (n =? 98)%nat then Some (ascii_of_nat 8)
  else if (n =? 102)%nat then Some (ascii_of_nat 12)
  else if (n =? 110)%nat then Some (ascii_of_nat 10)
  else if (n =? 114)%nat then Some (ascii_of_nat 13)
  else if (n =? 116)%nat then Some (ascii_of_nat 9)
  else None.

Definition hex_value (c : ascii) : option Z :=
  let n := Z.of_nat (nat_of_ascii c) in
  if (48 <=? n) && (n <=? 57) then Some (n - 48)
  else if (65 <=? n) && (n <=? 70) then Some (n - 55)
  else if (97 <=? n) && (n <=? 102) then Some (n - 87)
  else None.

(** The code point of the four hexadecimal digits of a [\u] escape *)
Definition hex4 (a b c d : ascii) : option Z :=
  match hex_value a, hex_value b, hex_value c, hex_value d with
  | Some x, Some y, Some z, Some w => Some (((x * 16 + y) * 16 + z) * 16 + w)
  | _, _, _, _ => None
  end.

(** Does the text go on with the escape of a low surrogate
    ([\udc00]-[\udfff])?  After a high surrogate the two make one code
    point beyond the fragment. *)
Definition low_surrogate_follows (s : string) : bool :=
  match s with
  | String b (String u (String a (String b' (String c (String d _))))) =>
      Ascii.eqb b backslash && Ascii.eqb u "u"
      && match hex4 a b' c d with
         | Some v => (56320 <=? v) && (v <=? 57343)
         | None => false
         end
  | _ => false
  end.

(** A surrogate as the three characters that stand for it *)
Definition surrogate_text (v : Z) : string :=
  String (ascii_of_nat 237)
    (String (ascii_of_nat (Z.to_nat (128 + (v / 64) mod 64)))
       (String (ascii_of_nat (Z.to_nat (128 + v mod 64))) EmptyString)).

(** The text of the code point [v] of a [\u] escape that is followed by
    [rest] *)
Definition code_point_text (v : Z) (rest : string) : option string :=
  if v <? 256 then Some (String (ascii_of_nat (Z.to_nat v)) EmptyString)
  else if (55296 <=? v) && (v <=? 57343) then
    if (v <=? 56319) && low_surrogate_follows rest then None
    else Some (surrogate_text v)
  else None.

(** The characters of a string literal after its opening quote, and what
    follows the closing quote *)
Fixpoint parse_string (s : string) : option (string * string) :=
  match s with
  | EmptyString => None
  | String c rest =>
      if Ascii.eqb c dquote then Some (EmptyString, rest)
      else if Ascii.eqb c backslash then
        match rest with
        | String e rest' =>
            if Ascii.eqb e "u" then
              match rest' with
              | String a (String b (String c' (String d r))) =>
                  match hex4 a b c' d with
                  | Some v =>
                      match code_point_text v r, parse_string r with
                      | Some x, Some (t, r') => Some (String.append x t, r')
                      | _, _ => None
                      end
                  | None => None
                  end
              | _ => None
              end
            else
            match unescape e, parse_string rest' with
            | Some x, Some (t, r) => Some (String x t, r)
            | _, _ => None
            end
        | EmptyString => None
        end
      else if (nat_of_ascii c <? 32)%nat then None
      else
        match parse_string rest with
        | Some (t, r) => Some (String c t, r)
        | None => None
        end
  end.

Fixpoint parse_digits (acc : Z) (s : string) : Z * string :=
  match s with
  | String c rest =>
      if is_digit c then parse_digits (10 * acc + digit_value c) rest
      else (acc, s)
  | EmptyString => (acc, s)
  end.

(** What may not follow the digits of an integer of the fragment *)
Definition starts_fraction (s : string) : bool :=
  match s with
  | String c _ =>
      let n := nat_of_ascii c in ((n =? 46) || (n =? 101) || (n =? 69))%nat
  | EmptyString => false
  end.

(** [-? (0 | [1-9][0-9]* )], of at most 4300 digits *)
Definition parse_nat (s : string) : option (Z * string) :=
  match s with
  | String c rest =>
      if Ascii.eqb c "0" then
        if starts_fraction rest then None else Some (0, rest)
      else if is_digit c then
        let (z, r) := parse_digits 0 s in
        if starts_fraction r then None
        else if (4300 <? String.length s - String.length r)%nat then None
        else Some (z, r)
      else None
  | EmptyString => None
  end.

(** [d[k] = v] on a dict in insertion order *)
Fixpoint dict_set (kv : list (string * json)) (k : string) (v : json)
  : list (string * json) :=
  match kv with
  | [] => [(k, v)]
  | (k', v') :: rest =>
      if (k' =? k)%string then (k', v) :: rest
      else (k', v') :: dict_set rest k v
  end.

Fixpoint parse_value (fuel : nat) (s : string) : option (json * string) :=
  match fuel with
  | O => None
  | S f =>
      match s with
      | EmptyString => None
      | String c rest =>
          if starts_with "null" s then Some (JNull, drop 4 s)
          else if starts_with "true" s then Some (JBool true, drop 4 s)
          else if starts_with "false" s then Some (JBool false, drop 5 s)
          else if Ascii.eqb c dquote then
            match parse_string rest with
            | Some (t, r) => Some (JStr t, r)
            | None => None
            end
          else if Ascii.eqb c "[" then
            match skip_ws rest with
            | String "]" r => Some (JArr [], r)
            | r => parse_elements f r []
            end
          else if Ascii.eqb c "{" then
            match skip_ws rest with
            | String "}" r => Some (JObj [], r)
            | r => parse_members f r []
            end
          else if Ascii.eqb c "-" then
            match parse_nat rest with
            | Some (z, r) => Some (JNum (- z), r)
            | None => None
            end
          else
            match parse_nat s with
            | Some (z, r) => Some (JNum z, r)
            | None => None
            end
      end
  end
with parse_elements (fuel : nat) (s : string) (acc : list json)
  : option (json * string) :=
  match fuel with
  | O => None
  | S f =>
      match parse_value f s with
      | Some (v, r) =>
          match skip_ws r with
          | String "," r' => parse_elements f (skip_ws r') (acc ++ [v])
          | String "]" r' => Some (JArr (acc ++ [v]), r')
          | _ => None
          end
      | None => None
      end
  end
with parse_members (fuel : nat) (s : string) (acc : list (string * json))
  : option (json * string) :=
  match fuel with
  | O => None
  | S f =>
      match s with
      | String c rest =>
          if Ascii.eqb c dquote then
            match parse_string rest with
            | Some (k, r) =>
                match skip_ws r with
                | String ":" r1 =>
                    match parse_value f (skip_ws r1) with
                    | Some (v, r2) =>
                        match skip_ws r2 with
                        | String "," r3 => parse_members f (skip_ws r3) (dict_set acc k v)
                        | String "}" r3 => Some (JObj (dict_set acc k v), r3)
                        | _ => None
                        end
                    | None => None
                    end
                | _ => None
                end
            | None => None
            end
          else None
      | EmptyString => None
      end
  end.

Definition loads_text (s : string) : option json :=
  match parse_value (2 * String.length s + 2) (skip_ws s) with
  | Some (v, r) =>
      match skip_ws r with
      | EmptyString => Some v
      | _ => None
      end
  | None => None
  end.

(** JSON text written with single quotes in place of double quotes *)
Fixpoint js (s : string) : string :=
  match s with
  | EmptyString => EmptyString
  | String c rest => String (if Ascii.eqb c "'" then dquote else c) (js rest)
  end.

(** [repr] of [None], of a boolean and of an integer; the examples apply
    it to nothing else. *)
Definition repr_scalar (v : json) : string :=
  match v with
  | JNull => "None"
  | JBool true => "True"
  | JBool false => "False"
  | JNum z => NilEmpty.string_of_int (Z.to_int z)
  | _ => ""
  end.

(** Number of oracle calls recorded in a trace *)
Definition oracle_calls (tr : trace) : nat :=
  List.length (filter (fun e => match e with EGenerate _ _ => true | _ => false end) tr).

Definition searches (tr : trace) : nat :=
  List.length (filter (fun e => match e with ESearch _ => true | _ => false end) tr).

(** An oracle that answers its n-th call with the n-th reply of a script,
    and a platform that answers its n-th search with the n-th page *)
Definition scripted (replies : list reply) : trace -> string -> prompt -> reply :=
  fun tr _ _ => nth (oracle_calls tr) replies CallFails.

Definition paged (pages : list (option response)) : trace -> json -> option response :=
  fun tr _ => nth (searches tr) pages None.

(** The example runtime.  Its console never refuses a text, as one set up
    with the error handler [replace]. *)
Definition example_env (replies : list reply) (pages : list (option response)) : env :=
  mkEnv loads_text repr_scalar (fun _ _ => Ret tt) (fun _ => true)
        (scripted replies) (paged pages).

(** Does the text hold a surrogate, as [loads_text] writes one? *)
Fixpoint holds_surrogate (s : string) : bool :=
  match s with
  | EmptyString => false
  | String a rest =>
      match rest with
      | String b _ =>
          ((nat_of_ascii a =? 237) && (160 <=? nat_of_ascii b)
           && (nat_of_ascii b <=? 191))%nat
      | EmptyString => false
      end
      || holds_surrogate rest
  end.

(** A strict UTF-8 console: it encodes every text but one that holds a
    surrogate. *)
Definition utf8_strict (s : string) : bool := negb (holds_surrogate s).

(** The example runtime with the strict UTF-8 console, which is what
    [sys.stdout] is by default. *)
Definition strict_env (replies : list reply) (pages : list (option response)) : env :=
  mkEnv loads_text repr_scalar (fun _ _ => Ret tt) utf8_strict
        (scripted replies) (paged pages).

(** The text [json.loads] makes of the escape [\ud83d] *)
Definition lone_surrogate : string := surrogate_text 55357.

Definition says (text : string) : reply := Text (Some (js text)).

Definition page (text : string) : option response :=
  Some (mkResponse 200 true (js text)).

(** A record as the platform sends it *)
Definition article_of (id : Z) (title abstract : string) : json :=
  JObj [("id", JNum id); ("title", JStr title);
        ("abstracts", JArr [JObj [("content", JStr abstract)]])].

Definition record1 : json := article_of 1 "T" "A".

(** ** Observations used to state the properties *)

(** What the fetch of one iteration brings back: [None] when there is no
    response or the response is not OK, else the [data] of its body (or
    the exception reading it raises). *)
Definition fetched_articles (E : env) (start_index : Z) (tr : trace)
  : option (outcome json) :=
  match api_fetch E tr (undecided_payload start_index batch_size) with
  | None => None
  | Some r =>
      if ok r
      then Some (let? data := response_json E r in py_get data "data" (JArr []))
      else None
  end.

(** A request that can resolve the future: it is the target request and
    its filtered headers carry an authorization entry. *)
Definition qualifies (review_id : string) (req : request) : bool :=
  is_target review_id req && has_authorization (discovered_headers (all_headers req)).

(** The probe of the session validator *)
Definition probe_payload : json := undecided_payload 0 1.

(** The key under which an entry of the cluster dict is stored *)
Definition entry_key (c : json * list json) : option key := key_of (fst c).

Definition keys (cl : clusters) : list (option key) := map entry_key cl.

Definition members (cl : clusters) : list json := List.concat (map snd cl).

(** A record that the grouping loop files under a cluster: its
    [cluster_id] reads as a truthy value. *)
Definition clustered (article : json) : bool :=
  match cluster_id_of article with
  | Ret cluster_id => truthy cluster_id
  | Raise _ => false
  end.

(** The dict key of a record's [cluster_id] *)
Definition article_key (article : json) : option key :=
  match cluster_id_of article with
  | Ret cluster_id => key_of cluster_id
  | Raise _ => None
  end.

(** A record on which the grouping loop does not raise: its cluster id
    can be read and, when truthy, hashed. *)
Definition groupable (article : json) : bool :=
  match cluster_id_of article with
  | Ret cluster_id =>
      negb (truthy cluster_id)
      || match key_of cluster_id with Some _ => true | None => false end
  | Raise _ => false
  end.

(** A record whose [id] and first abstract can be read without an
    exception *)
Definition readable (article : json) : bool :=
  match py_get article "id" JNull, first_abstract article with
  | Ret _, Ret _ => true
  | _, _ => false
  end.

Definition id_of (article : json) : json :=
  match py_get article "id" JNull with
  | Ret i => i
  | Raise _ => JNull
  end.

Definition abstract_of (article : json) : json :=
  match first_abstract article with
  | Ret a => a
  | Raise _ => JStr ""
  end.

(** The record ids of the PATCH calls of a trace, in order *)
Fixpoint patch_targets (tr : trace) : list json :=
  match tr with
  | [] => []
  | EPatch article_id _ :: rest => article_id :: patch_targets rest
  | _ :: rest => patch_targets rest
  end.

(** The prompts sent to the oracle in a trace, with the model asked *)
Fixpoint prompts (tr : trace) : list (string * prompt) :=
  match tr with
  | [] => []
  | EGenerate model contents :: rest => (model, contents) :: prompts rest
  | _ :: rest => prompts rest
  end.

(** The non-anchor members of a cluster that is processed *)
Definition compared (c : json * list json) : list json :=
  if Z.of_nat (List.length (snd c)) <? 2 then [] else tl (snd c).

Definition key_eq_dec (a b : option key) : {a = b} + {a <> b}.
Proof.
  decide equality. decide equality.
  - apply Z.eq_dec.
  - apply string_dec.
Defined.

(** Keys in the order in which they are first met, [seen] being the keys
    met before *)
Fixpoint first_seen (seen ks : list (option key)) : list (option key) :=
  match ks with
  | [] => []
  | k :: rest =>
      if in_dec key_eq_dec k seen then first_seen seen rest
      else k :: first_seen (seen ++ [k]) rest
  end.

(** Every member of every cluster carries the key of its cluster *)
Definition keyed (cl : clusters) : Prop :=
  forall c m, In c cl -> In m (snd c) -> article_key m = entry_key c.

(** The oracle is asked about two abstracts when neither is empty *)
Definition both_present (abstract1 abstract2 : json) : bool :=
  truthy abstract1 && truthy abstract2.

(** The oracle call of one comparison: it is made when neither abstract
    is empty. *)
Definition comparison_call (anchor other : json) : trace :=
  if both_present (abstract_of anchor) (abstract_of other)
  then [EGenerate duplicate_model
          (DuplicatePrompt (abstract_of anchor) (abstract_of other))]
  else [].

(** The calls of one comparison in the order of lines 138-145: the oracle
    call, if any, the PATCH for the other record, the delay *)
Definition comparison_events (anchor other : json) (action : Z) : trace :=
  comparison_call anchor other
  ++ [EPatch (id_of other) (duplicate_payload action); ESleep 5].

(** The comparisons of a cluster: its anchor against each compared
    member, in order *)
Definition comparisons (c : json * list json) : list (json * json) :=
  match snd c with
  | [] => []
  | anchor :: _ => map (pair anchor) (compared c)
  end.

(** [resolves E tr pairs evs]: started after the calls [tr], the calls
    [evs] are one block per pair (anchor, other), in the order of the
    pairs.  Each block is the comparison run at the point reached, whose
    verdict and reason the console can show, then the PATCH for the other
    record, with action 1 when the verdict is truthy and 2 when it is
    not, then the delay. *)
Inductive resolves (E : env) : trace -> list (json * json) -> trace -> Prop :=
| resolves_nil (tr : trace) : resolves E tr [] []
| resolves_cons (tr tr1 : trace) (anchor other is_dup reason : json)
    (rest : list (json * json)) (evs : trace) :
    are_abstracts_duplicates E (abstract_of anchor) (abstract_of other) tr
      = (Ret (is_dup, reason), tr1) ->
    prints_ok E is_dup = true ->
    prints_ok E reason = true ->
    resolves E
      (tr ++ comparison_events anchor other (if truthy is_dup then 1 else 2))
      rest evs ->
    resolves E tr ((anchor, other) :: rest)
      (comparison_events anchor other (if truthy is_dup then 1 else 2) ++ evs).

(** ** Inputs of the examples *)

Definition silent_env : env := example_env [] [].

(** A record with no title *)
Definition untitled_record : json :=
  JObj [("id", JNum 7); ("abstracts", JArr [JObj [("content", JStr "A")]])].

(** The oracle includes, and gives a reason all the same *)
Definition include_with_reason_env : env :=
  example_env [says "{'decision':'include','reason':'Good'}"] [].

(** One batch of one record, excluded as [Not RCT], then an empty batch *)
Definition one_batch_env : env :=
  example_env [says "{'decision':'exclude','reason':'Not RCT'}"]
    [page "{'data':[{'id':1,'title':'T','abstracts':[{'content':'A'}]}]}";
     page "{'data':[]}"].

Definition clustered_article (id : Z) (abstract : string) (cluster_id : json) : json :=
  JObj [("id", JNum id);
        ("abstracts", JArr [JObj [("content", JStr abstract)]]);
        ("dedup_results", JObj [("cluster_id", cluster_id)])].

(** The cluster [c1] of three records; the oracle finds the second a
    duplicate of the first and the third not. *)
Definition cluster_c1 : list json :=
  [clustered_article 1 "A" (JStr "c1");
   clustered_article 2 "B" (JStr "c1");
   clustered_article 3 "C" (JStr "c1")].

Definition cluster_c1_env : env :=
  example_env [says "{'is_duplicate': true, 'reason': 'same study'}";
               says "{'is_duplicate': false, 'reason': 'different cohort'}"] [].

(** Two records that the platform files under the cluster id 0 *)
Definition cluster_zero : list json :=
  [clustered_article 1 "A" (JNum 0); clustered_article 2 "B" (JNum 0)].

(** Both files present; the probe is answered with status 401 *)
Definition saved_session : files :=
  mkFiles (Some "{}") (Some (js "{'authorization':'Bearer t'}")).

Definition expired_env : env :=
  example_env [] [Some (mkResponse 401 false "")].

(** Requests seen during a setup for review 42: a page load, the target
    request without and then with its authorization header, and the target
    request once more with another token. *)
Definition setup_requests : list request :=
  [mkRequest "GET" "https://new.rayyan.ai/" [("Accept", "text/html")];
   mkRequest "SEARCH" "https://rayyan.ai/api/v1/reviews/42/results" [("X-Trace", "1")];
   mkRequest "SEARCH" "https://rayyan.ai/api/v1/reviews/42/results"
     [("Accept", "*/*"); ("Authorization", "Bearer one"); ("X-Csrf", "k")];
   mkRequest "SEARCH" "https://rayyan.ai/api/v1/reviews/42/results"
     [("authorization", "Bearer two")]].

(** The oracle answers the duplicate prompt with prose *)
Definition prose_env : env := example_env [Text (Some "They look alike.")] [].

(** The oracle excludes the one record of the batch, and its reason is
    the escape of a lone surrogate; the console is the strict one. *)
Definition surrogate_reason : string := "{'decision':'exclude','reason':'\ud83d'}".

Definition surrogate_reason_env : env :=
  strict_env [says surrogate_reason]
    [page "{'data':[{'id':1,'title':'T','abstracts':[{'content':'A'}]}]}";
     page "{'data':[]}"].

(** The oracle answers the duplicate prompt without a verdict, and its
    reason is the escape of a lone surrogate. *)
Definition surrogate_verdict_env : env :=
  strict_env [says "{'reason':'\ud83d'}"] [].

(** The cluster [c1] on the strict console *)
Definition strict_c1_env : env :=
  strict_env [says "{'is_duplicate': true, 'reason': 'same study'}";
              says "{'is_duplicate': false, 'reason': 'different cohort'}"] [].



(** ** Further observations of a trace *)

(** The record ids of the POST calls of a trace, in order *)
Fixpoint post_targets (tr : trace) : list json :=
  match tr with
  | [] => []
  | EPost payload :: rest =>
      match py_get payload "article_id" JNull with
      | Ret i => i :: post_targets rest
      | Raise _ => JNull :: post_targets rest
      end
  | _ :: rest => post_targets rest
  end.

(** The delays of a trace, in order *)
Fixpoint sleeps (tr : trace) : list Z :=
  match tr with
  | [] => []
  | ESleep seconds :: rest => seconds :: sleeps rest
  | _ :: rest => sleeps rest
  end.

(** The oracle call of one record: it is made when neither the title
    nor the first abstract is empty. *)
Definition screening_call (article : json) : trace :=
  match py_get article "title" (JStr ""), read_abstract article with
  | Ret title, Ret abstract =>
      if truthy title && truthy abstract
      then [EGenerate screening_model (ScreeningPrompt title abstract)]
      else []
  | _, _ => []
  end.

(** The four plans the writer can post *)
Definition known_plan (plan : json) : Prop :=
  plan = plan1 "included" 1 \/ plan = plan1 "included" (-1)
  \/ plan = plan1 "included" 0
  \/ exists reason : string, plan = plan1 (String.append "__EXR__" reason) 1.

(** The calls of one record that is processed, in the order of lines
    244-254: the oracle call, if any, one POST of a known plan for the
    record's id, the delay of six seconds *)
Definition screening_block (article : json) (block : trace) : Prop :=
  exists plan : json,
    known_plan plan
    /\ block = screening_call article
               ++ [EPost (customize_payload (id_of article) plan); ESleep 6].

(** A dict whose [decision] is one of the three words the writer knows *)
Definition known_decision (d : json) : Prop :=
  exists kv s,
    d = JObj kv /\ dict_lookup kv "decision" = Some (JStr s)
    /\ (s = "include" \/ s = "exclude" \/ s = "maybe").

(** A record as the screening loop expects it: a dict with an [id], a
    title that is absent or a string, and abstracts that can be read. *)
Definition well_formed_record (article : json) : bool :=
  match article with
  | JObj kv =>
      match dict_lookup kv "id" with Some _ => true | None => false end
      && match dict_lookup kv "title" with
         | None | Some (JStr _) => true
         | Some _ => false
         end
      && match read_abstract article with Ret _ => true | Raise _ => false end
  | _ => false
  end.



(** A record whose title is [null] *)
Definition null_title_record : json :=
  JObj [("id", JNum 5); ("title", JNull);
        ("abstracts", JArr [JObj [("content", JStr "A")]])].


(** ** [resolve_duplicates.py]: the master list and the script's [main] *)

Definition duplicates_payload : json :=
  JObj [("start", JNum 0);
        ("return_filtered_total", JStr "false");
        ("extra", JObj [("dedup_result", JNum 0)])].

(** [fetch_all_unresolved_duplicates]: the parsed body of an OK response;
    [None] (here [JNull]) when the response is not OK or when the call or
    the reading of the body raised, both inside the [try]. *)
Definition fetch_all_unresolved_duplicates (E : env) : task json :=
  fun tr =>
    let tr1 := tr ++ [ESearch duplicates_payload] in
    match api_fetch E tr duplicates_payload with
    | None => (Ret JNull, tr1)
    | Some r =>
        if ok r then
          match json_loads E (body r) with
          | Some data => (Ret data, tr1)
          | None => (Ret JNull, tr1)
          end
        else (Ret JNull, tr1)
    end.

(** [resolve_duplicates.py] lines 80-148 *)
Definition resolve_duplicates_main (E : env) (fs : files) : task unit :=
  match auth_file fs, headers_file fs with
  | Some auth, Some text =>
      headers <- lift (loads E text) ;;
      _ <- lift (new_context E auth headers) ;;
      master_list_data <- fetch_all_unresolved_duplicates E ;;
      if negb (truthy master_list_data) then ret tt
      else
        data <- lift (py_get master_list_data "data" JNull) ;;
        if negb (truthy data) then ret tt
        else
          all_articles <- lift (py_get master_list_data "data" (JArr [])) ;;
          items <- lift (py_iter all_articles) ;;
          resolve_clusters E items
  | _, _ => ret tt
  end.

(** The records of the master list: the [data] of the body when the
    response is there, is OK, and its body parses to an object with
    truthy [data]. *)
Definition master_list (E : env) (tr : trace) : option json :=
  match api_fetch E tr duplicates_payload with
  | None => None
  | Some r =>
      if ok r then
        match json_loads E (body r) with
        | Some (JObj kv) =>
            match dict_lookup kv "data" with
            | Some data => if truthy data then Some data else None
            | None => None
            end
        | _ => None
        end
      else None
  end.


(** Does the record belong to the cluster stored under [k]? *)
Definition in_cluster (k : option key) (article : json) : bool :=
  clustered article && if key_eq_dec (article_key article) k then true else false.

(** The platform lists the cluster [c1] *)
Definition cluster_c1_page_env : env :=
  example_env [says "{'is_duplicate': true, 'reason': 'same study'}";
               says "{'is_duplicate': false, 'reason': 'different cohort'}"]
    [page "{'data': [{'id': 1, 'abstracts': [{'content': 'A'}], 'dedup_results': {'cluster_id': 'c1'}}, {'id': 2, 'abstracts': [{'content': 'B'}], 'dedup_results': {'cluster_id': 'c1'}}, {'id': 3, 'abstracts': [{'content': 'C'}], 'dedup_results': {'cluster_id': 'c1'}}]}"].

(** The oracle answers with the string [false] for [is_duplicate] *)
Definition string_false_env : env :=
  example_env [says "{'is_duplicate': 'false'}"] [].

(** The cluster dict after the records [done] have been filed: distinct
    keys; each cluster holds, in their order, the records of [done] that
    carry its key, and is stored under the [cluster_id] of the first of
    them; every filed record has its cluster. *)
Definition grouped (cl : clusters) (done : list json) : Prop :=
  NoDup (keys cl)
  /\ (forall c, In c cl ->
        snd c = filter (in_cluster (entry_key c)) done
        /\ exists anchor others,
             snd c = anchor :: others /\ cluster_id_of anchor = Ret (fst c))
  /\ (forall a, In a done -> clustered a = true -> In (article_key a) (keys cl)).

(** [clusters[cluster_id].append(article)] on an entry *)
Definition append_if_key (k : key) (article : json) (c : json * list json)
  : json * list json :=
  if has_key k c then (fst c, snd c ++ [article]) else c.

(** ** Text without backquotes *)

Definition backquote : ascii := "`"%char.

Fixpoint no_backquote (s : string) : bool :=
  match s with
  | EmptyString => true
  | String c rest => negb (Ascii.eqb c backquote) && no_backquote rest
  end.

(** ** [main.py]: the browser setup, step by step *)

(** The calls of [perform_full_setup] that can raise: those of the
    browser, in the order of lines 157-189, and the two writes.
    [DumpHeaders h] is [open(HEADERS_FILE, "w")] with [json.dump(h, f)],
    [StorageState] is [context.storage_state(path=AUTH_FILE)]. *)
Inductive setup_step : Type :=
| Launch
| NewContext
| NewPage
| Goto
| FillEmail
| FillPassword
| ClickSignIn
| WaitForLoadState
| DumpHeaders (discovered : headers)
| StorageState
| Close.

(** How a setup ends: it returns, a step raised, or [wait_for] timed
    out. *)
Inductive setup_outcome : Type :=
| SetupDone
| SetupRaised (e : exn)
| SetupTimeout.

(** One session with the browser: which steps raise, and the requests
    whose handlers ran before [wait_for] returned or timed out. *)
Record browser : Type := mkBrowser {
  step_raises : setup_step -> option exn;
  seen : list request
}.

Definition setup (A : Type) : Type := list setup_step -> A * list setup_step.

Definition attempt (B : browser) (s : setup_step) : setup setup_outcome :=
  fun log =>
    (match step_raises B s with
     | None => SetupDone
     | Some e => SetupRaised e
     end, log ++ [s]).

(** [m] then, when it returned, [k] *)
Definition and_then (m k : setup setup_outcome) : setup setup_outcome :=
  fun log =>
    match m log with
    | (SetupDone, log') => k log'
    | failed => failed
    end.

(** [try: body finally: cleanup] *)
Definition finally (body cleanup : setup setup_outcome) : setup setup_outcome :=
  fun log =>
    let (o, log1) := body log in
    match cleanup log1 with
    | (SetupDone, log2) => (o, log2)
    | failed => failed
    end.

(** [asyncio.wait_for(future, timeout=120)], then the two writes *)
Definition await_headers (B : browser) (review_id : string) : setup setup_outcome :=
  match fst (observe review_id (seen B) Pending) with
  | Resolved discovered =>
      and_then (attempt B (DumpHeaders discovered)) (attempt B StorageState)
  | _ => fun log => (SetupTimeout, log)
  end.

Definition login_steps : list setup_step :=
  [Goto; FillEmail; FillPassword; ClickSignIn; WaitForLoadState].

(** [main.py] lines 155-189 *)
Definition perform_full_setup (B : browser) (review_id : string)
  : setup setup_outcome :=
  and_then (attempt B Launch)
    (and_then (attempt B NewContext)
       (and_then (attempt B NewPage)
          (finally
             (fold_right (fun s k => and_then (attempt B s) k)
                (await_headers B review_id) login_steps)
             (attempt B Close)))).

Definition is_close (s : setup_step) : bool :=
  match s with Close => true | _ => false end.

Definition is_write (s : setup_step) : bool :=
  match s with DumpHeaders _ | StorageState => true | _ => false end.

(** A browser in which no step raises *)
Definition smooth (reqs : list request) : browser :=
  mkBrowser (fun _ => None) reqs.

(** ** Further inputs of the examples *)

(** The platform serves one batch whose first record has a [null] title *)
Definition null_title_env : env :=
  example_env []
    [page "{'data':[{'id':5,'title':null,'abstracts':[{'content':'A'}]}]}"].

(** Both files are there, and [headers.json] is not JSON *)
Definition corrupt_session : files := mkFiles (Some "{}") (Some "oops").

(** An answer of the oracle inside a markdown fence *)
Definition fenced_body : string := "
{}
".

Definition fenced_answer : string := (fence_json ++ fenced_body ++ fence)%string.

(** * Properties *)

(** ** Reading the monad *)

Ltac run_task :=
  unfold invalid_json_from_ai, print_values, ask, post, sleep, bind, lift, ret,
    raise, try_except, emit in *;
  simpl in *.

Lemma py_eq_str_true (v : json) (s : string) :
  py_eq_str v s = true <-> v = JStr s.
Proof.
  destruct v; simpl; split; intro H; try discriminate.
  - apply String.eqb_eq in H. now subst.
  - inversion H. apply String.eqb_refl.
Qed.


Lemma oracle_calls_app (tr1 tr2 : trace) :
  oracle_calls (tr1 ++ tr2) = (oracle_calls tr1 + oracle_calls tr2)%nat.
Proof.
  unfold oracle_calls. now rewrite filter_app, length_app.
Qed.

(** ** The classification oracle *)

(** A record whose [title] key is absent reads as the empty title, and
    a record with no [abstracts] key, or an empty list of abstracts, reads
    as the empty abstract: both are falsy. *)
Lemma absent_title_is_empty (kv : list (string * json)) :
  dict_lookup kv "title" = None ->
  py_get (JObj kv) "title" (JStr "") = Ret (JStr "").
Proof. intro H. simpl. now rewrite H. Qed.

Lemma absent_abstracts_is_empty (kv : list (string * json)) :
  dict_lookup kv "abstracts" = None \/ dict_lookup kv "abstracts" = Some (JArr []) ->
  read_abstract (JObj kv) = Ret (JStr "").
Proof. intros [H | H]; unfold read_abstract; simpl; now rewrite H. Qed.

(** C1. A record whose title is missing or empty, or whose abstract is
    missing or empty ([not title or not abstract] at line 87), is decided
    [exclude] with reason [Missing Data]; the trace is returned as it was
    received, so no call of the oracle (no remote call at all) was made. *)
Theorem missing_data_short_circuit
  (E : env) (article title abstract : json) (tr : trace) :
  py_get article "title" (JStr "") = Ret title ->
  read_abstract article = Ret abstract ->
  truthy title = false \/ truthy abstract = false ->
  get_ai_decision E article tr = (Ret missing_data, tr)
  /\ oracle_calls (snd (get_ai_decision E article tr)) = oracle_calls tr.
Proof.
  intros Ht Ha Hfalsy.
  assert (Hrun : get_ai_decision E article tr = (Ret missing_data, tr)).
  { unfold get_ai_decision. run_task. rewrite Ht, Ha.
    destruct Hfalsy as [H | H]; rewrite H; simpl.
    - reflexivity.
    - now rewrite orb_true_r. }
  split; [exact Hrun | now rewrite Hrun].
Qed.

(** What a run of the [try] block gives when the oracle answered with a
    text: the handler is reached exactly when the block raises. *)
Lemma get_ai_decision_with_text
  (E : env) (article title abstract : json) (tr : trace) (text : string) :
  py_get article "title" (JStr "") = Ret title ->
  read_abstract article = Ret abstract ->
  truthy title = true -> truthy abstract = true ->
  generate_content E tr screening_model (ScreeningPrompt title abstract)
    = Text (Some text) ->
  let tr' := tr ++ [EGenerate screening_model (ScreeningPrompt title abstract)] in
  get_ai_decision E article tr =
    let invalid :=
      if text_prints E (clean_response text) then (Ret ai_format_error, tr')
      else get_ai_decision_except article UnicodeEncodeError tr' in
    match json_loads E (clean_response text) with
    | None => get_ai_decision_except article JSONDecodeError tr'
    | Some decision_json =>
        match py_in "decision" decision_json with
        | Raise e => get_ai_decision_except article e tr'
        | Ret false => invalid
        | Ret true =>
            match py_item decision_json "decision" with
            | Raise e => get_ai_decision_except article e tr'
            | Ret d => if is_include_or_exclude d then (Ret decision_json, tr')
                       else invalid
            end
        end
    end.
Proof.
  intros Ht Ha Tt Ta Hgen. unfold get_ai_decision, get_ai_decision_try, loads.
  run_task. rewrite Ht, Ha, Tt, Ta. simpl. rewrite Hgen.
  destruct (json_loads E (clean_response text)) as [dj |]; [| reflexivity].
  destruct (py_in "decision" dj) as [[|] | e]; try reflexivity.
  - destruct (py_item dj "decision") as [d | e]; [| reflexivity].
    destruct (is_include_or_exclude d); [reflexivity |].
    rewrite andb_true_r.
    now destruct (text_prints E (clean_response text)).
  - rewrite andb_true_r.
    now destruct (text_prints E (clean_response text)).
Qed.

(** A text that does not parse reaches the handler of line 109, whose
    answer is [API Call Error]. *)
Lemma unparseable_text_is_api_call_error
  (E : env) (article title abstract id : json) (tr : trace) (text : string) :
  py_get article "title" (JStr "") = Ret title ->
  read_abstract article = Ret abstract ->
  truthy title = true -> truthy abstract = true ->
  py_item article "id" = Ret id ->
  generate_content E tr screening_model (ScreeningPrompt title abstract)
    = Text (Some text) ->
  json_loads E (clean_response text) = None ->
  get_ai_decision E article tr =
    (Ret api_call_error,
     tr ++ [EGenerate screening_model (ScreeningPrompt title abstract)]).
Proof.
  intros Ht Ha Tt Ta Hid Hgen Hparse.
  rewrite (get_ai_decision_with_text E article title abstract tr text) by assumption.
  rewrite Hparse. unfold get_ai_decision_except. run_task. now rewrite Hid.
Qed.

(** A JSON object without a [decision] in [include], [exclude] is an
    [AI Format Error], once the message of line 107 has shown the cleaned
    text. *)
Lemma object_without_decision_is_format_error
  (E : env) (article title abstract : json) (tr : trace) (text : string)
  (kv : list (string * json)) :
  py_get article "title" (JStr "") = Ret title ->
  read_abstract article = Ret abstract ->
  truthy title = true -> truthy abstract = true ->
  generate_content E tr screening_model (ScreeningPrompt title abstract)
    = Text (Some text) ->
  json_loads E (clean_response text) = Some (JObj kv) ->
  (forall d, dict_lookup kv "decision" = Some d -> is_include_or_exclude d = false) ->
  text_prints E (clean_response text) = true ->
  get_ai_decision E article tr =
    (Ret ai_format_error,
     tr ++ [EGenerate screening_model (ScreeningPrompt title abstract)]).
Proof.
  intros Ht Ha Tt Ta Hgen Hparse Hd Hprint.
  rewrite (get_ai_decision_with_text E article title abstract tr text) by assumption.
  rewrite Hparse, Hprint. simpl.
  destruct (dict_lookup kv "decision") as [d |]; [| reflexivity].
  now rewrite (Hd d eq_refl).
Qed.

(** C2, evaluated where it fails: the oracle's text [I cannot decide] is
    not JSON; [json.loads] raises inside the [try], the handler of line 109
    catches it, and the decision is [maybe] with reason [API Call Error],
    not [AI Format Error]. *)
Theorem unparseable_text_example :
  get_ai_decision (example_env [Text (Some "I cannot decide")] []) record1 []
  = (Ret api_call_error,
     [EGenerate screening_model (ScreeningPrompt (JStr "T") (JStr "A"))]).
Proof. reflexivity. Qed.

(** The same for a text that is JSON but not an object: ['decision' in 5]
    raises [TypeError]. *)
Lemma json_number_example :
  get_ai_decision (example_env [Text (Some "5")] []) record1 []
  = (Ret api_call_error,
     [EGenerate screening_model (ScreeningPrompt (JStr "T") (JStr "A"))]).
Proof. reflexivity. Qed.

(** C3, as amended.  When the cleaned text parses to a JSON object whose
    [decision] is [include] or [exclude], [get_ai_decision] returns that
    object unchanged (line 105): the decision is the oracle's, and so is
    the reason, for [include] as well.  The reason of an [include] is only
    dropped by the writer, whose payload is [{"included": 1}] whatever
    reason it is handed. *)
Theorem valid_decision_returned_unchanged
  (E : env) (article title abstract d : json) (tr : trace) (text : string)
  (kv : list (string * json)) :
  py_get article "title" (JStr "") = Ret title ->
  read_abstract article = Ret abstract ->
  truthy title = true -> truthy abstract = true ->
  generate_content E tr screening_model (ScreeningPrompt title abstract)
    = Text (Some text) ->
  json_loads E (clean_response text) = Some (JObj kv) ->
  dict_lookup kv "decision" = Some d ->
  is_include_or_exclude d = true ->
  get_ai_decision E article tr =
    (Ret (JObj kv),
     tr ++ [EGenerate screening_model (ScreeningPrompt title abstract)])
  /\ py_get (JObj kv) "decision" (JStr "maybe") = Ret d
  /\ py_get (JObj kv) "reason" JNull =
       Ret (match dict_lookup kv "reason" with Some r => r | None => JNull end)
  /\ forall (article_id reason : json) (tr' : trace),
       update_article_status E article_id (JStr "include") reason tr' =
         (Ret tt, tr' ++ [EPost (customize_payload article_id (plan1 "included" 1))]).
Proof.
  intros Ht Ha Tt Ta Hgen Hparse Hd Hin. repeat split.
  - rewrite (get_ai_decision_with_text E article title abstract tr text) by assumption.
    rewrite Hparse. simpl. rewrite Hd. now rewrite Hin.
  - simpl. now rewrite Hd.
Qed.

(** ** The decision writer *)


(** C5, evaluated where it fails.  The oracle excludes record 1 and gives
    as its reason the escape [\ud83d]: [json.loads] makes a lone surrogate
    of it.  The reason is present and not empty, so the claim has the
    reason-tagged flag posted.  The writer builds that payload, then
    prints the reason (line 124) before it enters the [try] of line 135:
    on the strict UTF-8 console the [print] raises [UnicodeEncodeError],
    no POST is made, nothing catches the exception, and the run ends
    after the one call of the oracle. *)
Theorem unprintable_reason_is_not_posted :
  loads_text (js surrogate_reason)
    = Some (JObj [("decision", JStr "exclude"); ("reason", JStr lone_surrogate)])
  /\ truthy (JStr lone_surrogate) = true
  /\ update_article_status surrogate_reason_env (JNum 1) (JStr "exclude")
       (JStr lone_surrogate) []
     = (Raise UnicodeEncodeError, [])
  /\ main_loop surrogate_reason_env 5 0 [] =
       Crashed UnicodeEncodeError
         [ESearch (undecided_payload 0 50);
          EGenerate screening_model (ScreeningPrompt (JStr "T") (JStr "A"))].
Proof. repeat split. Qed.

(** ** The screening loop *)

(** One iteration, read off the fetch *)
Lemma loop_body_cases (E : env) (i : Z) (tr : trace) :
  let tr1 := tr ++ [ESearch (undecided_payload i batch_size)] in
  loop_body E i tr =
    match fetched_articles E i tr with
    | None => (Ret (inl FetchFailed), tr1)
    | Some (Raise e) => (Raise e, tr1)
    | Some (Ret articles) =>
        if truthy articles then
          match articles with
          | JArr l =>
              match for_each (process_article E) l tr1 with
              | (Ret _, tr2) => (Ret (inr (i + Z.of_nat (List.length l))), tr2)
              | (Raise e, tr2) => (Raise e, tr2)
              end
          | JStr _ | JObj _ => (Raise AttributeError, tr1)
          | _ => (Raise TypeError, tr1)
          end
        else (Ret (inl NoMoreArticles), tr1)
    end.
Proof.
  unfold loop_body, fetched_articles, fetch_undecided_articles. run_task.
  destruct (api_fetch E tr (undecided_payload i batch_size)) as [r |]; [| reflexivity].
  destruct (ok r); simpl; [| reflexivity].
  destruct (response_json E r) as [data | e]; simpl; [| reflexivity].
  destruct (py_get data "data" (JArr [])) as [articles | e]; simpl; [| reflexivity].
  destruct articles as [| b | z | s | l | kv]; simpl; try reflexivity.
  - destruct b; reflexivity.
  - destruct (z =? 0); reflexivity.
  - destruct s as [| c s]; reflexivity.
  - destruct l as [| x l]; reflexivity.
  - destruct kv as [| [k v] kv]; reflexivity.
Qed.


Lemma loop_body_break (E : env) (i : Z) (tr tr' : trace) (why : stop) :
  loop_body E i tr = (Ret (inl why), tr') <->
  tr' = tr ++ [ESearch (undecided_payload i batch_size)]
  /\ ((why = FetchFailed /\ fetched_articles E i tr = None)
      \/ (why = NoMoreArticles
          /\ exists a, fetched_articles E i tr = Some (Ret a) /\ truthy a = false)).
Proof.
  rewrite loop_body_cases.
  destruct (fetched_articles E i tr) as [[a | e] |].
  - destruct (truthy a) eqn:T.
    + split.
      * destruct a as [| b | z | s | l | kv]; try discriminate.
        destruct (for_each (process_article E) l _) as [[[] | e] tr2]; discriminate.
      * intros [_ [[_ H] | [_ [a' [H T']]]]]; [discriminate |].
        inversion H. subst a'. congruence.
    + split.
      * intro H. inversion H. split; [reflexivity |]. right. split; [reflexivity |].
        now exists a.
      * intros [-> [[_ H] | [-> _]]]; [discriminate | reflexivity].
  - split; [discriminate |].
    intros [_ [[_ H] | [_ [a [H _]]]]]; discriminate.
  - split.
    + intro H. inversion H. split; [reflexivity |]. now left.
    + intros [-> [[-> _] | [_ [a [H _]]]]]; [reflexivity | discriminate].
Qed.




(** ** Session validation *)

(** C8. The browser setup is run ([should_run_setup] is true at line
    214) if and only if [auth.json] or [headers.json] does not exist, or
    the probe got no response, or its response has status 401.  With
    both files present and any other response the existing session is
    kept.  When a file is missing no probe is sent at all.  (When both
    files exist they are read before the probe: [headers.json] has to
    parse and the request context has to be created.) *)
Theorem setup_iff_file_absent_or_probe_invalid
  (E : env) (fs : files) (tr : trace) :
  auth_file fs = None \/ headers_file fs = None
  \/ (exists auth text headers,
        auth_file fs = Some auth /\ headers_file fs = Some text
        /\ json_loads E text = Some headers
        /\ new_context E auth headers = Ret tt) ->
  exists (b : bool) (tr' : trace),
    should_run_setup E fs tr = (Ret b, tr')
    /\ (b = true <->
        auth_file fs = None \/ headers_file fs = None
        \/ api_fetch E tr probe_payload = None
        \/ exists r, api_fetch E tr probe_payload = Some r /\ status r = 401)
    /\ (auth_file fs = None \/ headers_file fs = None -> tr' = tr).
Proof.
  intro Hfiles. unfold should_run_setup, fetch_undecided_articles, loads. run_task.
  destruct (auth_file fs) as [a |] eqn:Ha; simpl.
  2:{ exists true, tr. repeat split; auto. }
  destruct (headers_file fs) as [h |] eqn:Hh; simpl.
  2:{ exists true, tr. repeat split; auto. }
  destruct Hfiles as [H | [H | [a' [h' [v [H0 [H1 [H2 H3]]]]]]]]; try discriminate.
  inversion H0. inversion H1. subst a' h'. rewrite H2, H3. fold probe_payload.
  destruct (api_fetch E tr probe_payload) as [r |] eqn:Hp.
  - destruct (Z.eqb_spec (status r) 401) as [H401 | H401].
    + exists true, (tr ++ [ESearch probe_payload]). repeat split.
      * intros _. right. right. right. now exists r.
      * intros [H | H]; discriminate.
    + exists false, (tr ++ [ESearch probe_payload]). repeat split.
      * discriminate.
      * intros [H | [H | [H | [r' [H Hs]]]]]; try discriminate.
        inversion H. subst r'. contradiction.
      * intros [H | H]; discriminate.
  - exists true, (tr ++ [ESearch probe_payload]). repeat split.
    + intros _. right. right. now left.
    + intros [H | H]; discriminate.
Qed.

(** ** Header capture *)

Lemma observe_done (review_id : string) (reqs : list request) (f : future) :
  done f = true -> observe review_id reqs f = (f, []).
Proof.
  intro Hd. induction reqs as [| req rest IH]; simpl; [reflexivity |].
  unfold handle_request. rewrite Hd, andb_false_r.
  destruct (is_target review_id req); now rewrite IH.
Qed.

Lemma handle_request_pending (review_id : string) (req : request) :
  handle_request review_id req Pending =
    if qualifies review_id req
    then (Resolved (discovered_headers (all_headers req)),
          [discovered_headers (all_headers req)])
    else (Pending, []).
Proof.
  unfold handle_request, qualifies. destruct (is_target review_id req); simpl;
    [| reflexivity].
  rewrite andb_true_r.
  now destruct (has_authorization (discovered_headers (all_headers req))).
Qed.

Lemma observe_app (review_id : string) (reqs more : list request) (f : future) :
  observe review_id (reqs ++ more) f =
    let (f1, sets1) := observe review_id reqs f in
    let (f2, sets2) := observe review_id more f1 in
    (f2, sets1 ++ sets2).
Proof.
  revert f. induction reqs as [| req rest IH]; intro f; simpl.
  - now destruct (observe review_id more f).
  - destruct (handle_request review_id req f) as [f1 s1]. rewrite IH.
    destruct (observe review_id rest f1) as [f2 s2].
    destruct (observe review_id more f2) as [f3 s3]. now rewrite app_assoc.
Qed.

(** From a pending future: nothing qualifies and it stays pending, or the
    first qualifying request resolves it, once. *)
Lemma observe_pending (review_id : string) (reqs : list request) :
  (observe review_id reqs Pending = (Pending, [])
   /\ forallb (fun r => negb (qualifies review_id r)) reqs = true)
  \/ exists pre req post,
       reqs = pre ++ req :: post
       /\ forallb (fun r => negb (qualifies review_id r)) pre = true
       /\ qualifies review_id req = true
       /\ observe review_id reqs Pending =
            (Resolved (discovered_headers (all_headers req)),
             [discovered_headers (all_headers req)]).
Proof.
  induction reqs as [| req rest IH]; simpl; [now left |].
  rewrite handle_request_pending.
  destruct (qualifies review_id req) eqn:Hq.
  - right. exists [], req, rest. rewrite observe_done by reflexivity. now repeat split.
  - destruct IH as [[Hobs Hall] | [pre [r [post [Hreqs [Hpre [Hr Hobs]]]]]]].
    + left. rewrite Hobs. now split.
    + right. exists (req :: pre), r, post. rewrite Hobs. simpl. rewrite Hq, Hreqs.
      now repeat split.
Qed.

(** C9. Over any sequence of requests seen during one setup, starting
    from the fresh future of line 161: [future.set_result] is called at
    most once; a call is made by a request with method [SEARCH] and the
    target URL whose filtered headers (the headers whose lower-cased key
    starts with [x-] or is [authorization]) carry [authorization], with
    those filtered headers as the result, and no earlier request
    qualified;
    and once the future is done (resolved, or cancelled by the time-out),
    every later request leaves it as it is and sets nothing, so that the
    outcome of a resolved capture is the same however many requests
    follow. *)
Theorem header_capture_first_match_wins
  (review_id : string) (reqs : list request) :
  (List.length (snd (observe review_id reqs Pending)) <= 1)%nat
  /\ (forall h, In h (snd (observe review_id reqs Pending)) ->
        exists pre req post,
          reqs = pre ++ req :: post
          /\ method req = "SEARCH"
          /\ contains (target_url_part review_id) (url req) = true
          /\ h = discovered_headers (all_headers req)
          /\ (forall kv, In kv h <->
                 In kv (all_headers req)
                 /\ (starts_with "x-" (lower (fst kv))
                     || (lower (fst kv) =? "authorization")%string) = true)
          /\ has_authorization h = true
          /\ forallb (fun r => negb (qualifies review_id r)) pre = true
          /\ fst (observe review_id reqs Pending) = Resolved h)
  /\ (forall f more, done f = true -> observe review_id more f = (f, []))
  /\ (forall more h,
        fst (observe review_id reqs Pending) = Resolved h ->
        observe review_id (reqs ++ more) Pending = observe review_id reqs Pending).
Proof.
  repeat apply conj.
  - destruct (observe_pending review_id reqs)
      as [[Hobs _] | [pre [r [post [_ [_ [_ Hobs]]]]]]]; rewrite Hobs; simpl; lia.
  - intros h Hin.
    destruct (observe_pending review_id reqs)
      as [[Hobs _] | [pre [r [post [Hreqs [Hpre [Hr Hobs]]]]]]];
      rewrite Hobs in *; simpl in Hin; [contradiction |].
    destruct Hin as [<- | []].
    exists pre, r, post. unfold qualifies, is_target in Hr.
    apply andb_prop in Hr. destruct Hr as [Ht Hauth].
    apply andb_prop in Ht. destruct Ht as [Hm Hu].
    apply String.eqb_eq in Hm.
    assert (Hfilter : forall kv,
               In kv (discovered_headers (all_headers r)) <->
               In kv (all_headers r)
               /\ (starts_with "x-" (lower (fst kv))
                   || (lower (fst kv) =? "authorization")%string) = true).
    { intro kv. unfold discovered_headers. apply filter_In. }
    repeat split; auto; now apply Hfilter.
  - intros f more. apply observe_done.
  - intros more h Hres. rewrite observe_app.
    destruct (observe review_id reqs Pending) as [f1 sets1]. simpl in Hres. subst f1.
    rewrite observe_done by reflexivity. now rewrite app_nil_r.
Qed.

(** ** Duplicate comparison *)

(** The comparison never raises; it calls the oracle once, with the
    duplicate prompt on the two abstracts, when neither abstract is empty,
    and not at all otherwise. *)
Lemma are_abstracts_duplicates_returns
  (E : env) (abstract1 abstract2 : json) (tr : trace) :
  exists verdict : json * json,
    are_abstracts_duplicates E abstract1 abstract2 tr =
      (Ret verdict,
       tr ++ if both_present abstract1 abstract2
             then [EGenerate duplicate_model (DuplicatePrompt abstract1 abstract2)]
             else []).
Proof.
  unfold are_abstracts_duplicates, are_abstracts_duplicates_try, loads, both_present.
  run_task.
  destruct (truthy abstract1); simpl; [| rewrite app_nil_r; eauto].
  destruct (truthy abstract2); simpl; [| rewrite app_nil_r; eauto].
  destruct (generate_content E tr duplicate_model _) as [| [text |]]; eauto.
  destruct (json_loads E (clean_response text)) as [decision |]; eauto.
  destruct (py_get decision "is_duplicate" (JBool false)) as [d | e]; eauto.
  destruct (py_get decision "reason" (JStr "No reason provided.")) as [r | e]; eauto.
Qed.

(** On a console that encodes every text, every value prints. *)
Lemma prints_ok_encodes_all (E : env) (v : json) :
  (forall s, stdout_encodes E s = true) -> prints_ok E v = true.
Proof.
  intro Hall. destruct v; try reflexivity; unfold prints_ok, text_prints;
    rewrite Hall; apply orb_true_r.
Qed.

(** The duplicate comparison has no abstaining outcome of its own.
    When an abstract is empty, when the call of the oracle raises, when
    its response has no text, when the cleaned text does not parse, or
    when it parses to something without an [is_duplicate] key (an object
    lacking the key, or a value that is not an object), the comparison
    returns [False].  The reason it returns is one of the sentences of
    the code, except for an object that brings a reason of its own.  The
    loop body then prints verdict and reason: when the reason prints it
    sends the PATCH for the non-anchor record, with [duplicate_action] 2,
    confirmed not a duplicate; when it does not, the body raises after
    the comparison and sends nothing. *)
Lemma no_verdict_compares_false
  (E : env) (anchor_abstract other_article other_id other_abstract : json)
  (tr : trace) :
  py_get other_article "id" JNull = Ret other_id ->
  first_abstract other_article = Ret other_abstract ->
  truthy anchor_abstract = false \/ truthy other_abstract = false
  \/ generate_content E tr duplicate_model
       (DuplicatePrompt anchor_abstract other_abstract) = CallFails
  \/ generate_content E tr duplicate_model
       (DuplicatePrompt anchor_abstract other_abstract) = Text None
  \/ (exists text,
        generate_content E tr duplicate_model
          (DuplicatePrompt anchor_abstract other_abstract) = Text (Some text)
        /\ (json_loads E (clean_response text) = None
            \/ (exists kv, json_loads E (clean_response text) = Some (JObj kv)
                           /\ dict_lookup kv "is_duplicate" = None)
            \/ (exists v, json_loads E (clean_response text) = Some v
                          /\ forall kv, v <> JObj kv))) ->
  exists (reason : json) (tr1 : trace),
    are_abstracts_duplicates E anchor_abstract other_abstract tr
      = (Ret (JBool false, reason), tr1)
    /\ compare_member E anchor_abstract other_article tr
       = (if prints_ok E reason
          then (Ret tt, tr1 ++ [EPatch other_id (duplicate_payload 2); ESleep 5])
          else (Raise UnicodeEncodeError, tr1))
    /\ (prints_ok E reason = true
        \/ exists text kv,
             generate_content E tr duplicate_model
               (DuplicatePrompt anchor_abstract other_abstract) = Text (Some text)
             /\ json_loads E (clean_response text) = Some (JObj kv)
             /\ dict_lookup kv "reason" = Some reason).
Proof.
  intros Hid Habs Hcase.
  assert (Hcmp : forall reason tr1,
             are_abstracts_duplicates E anchor_abstract other_abstract tr
               = (Ret (JBool false, reason), tr1) ->
             compare_member E anchor_abstract other_article tr
               = (if prints_ok E reason
                  then (Ret tt, tr1 ++ [EPatch other_id (duplicate_payload 2); ESleep 5])
                  else (Raise UnicodeEncodeError, tr1))).
  { intros reason tr1 H. unfold compare_member, resolve_duplicate_status. run_task.
    rewrite Hid, Habs, H. simpl. rewrite andb_true_r.
    destruct (prints_ok E reason); [now rewrite <- app_assoc | reflexivity]. }
  assert (Hex : exists reason tr1,
             are_abstracts_duplicates E anchor_abstract other_abstract tr
               = (Ret (JBool false, reason), tr1)
             /\ (prints_ok E reason = true
                 \/ exists text kv,
                      generate_content E tr duplicate_model
                        (DuplicatePrompt anchor_abstract other_abstract) = Text (Some text)
                      /\ json_loads E (clean_response text) = Some (JObj kv)
                      /\ dict_lookup kv "reason" = Some reason)).
  { unfold are_abstracts_duplicates, are_abstracts_duplicates_try, loads. run_task.
    destruct (truthy anchor_abstract) eqn:T1; simpl;
      [| eexists; eexists; split; [reflexivity | now left]].
    destruct (truthy other_abstract) eqn:T2; simpl;
      [| eexists; eexists; split; [reflexivity | now left]].
    destruct Hcase as [H | [H | [H | [H | [text [H Hparse]]]]]];
      try discriminate; rewrite H;
      try (eexists; eexists; split; [reflexivity | now left]).
    destruct Hparse as [Hp | [[kv [Hp Hk]] | [v [Hp Hv]]]]; rewrite Hp.
    - eexists; eexists; split; [reflexivity | now left].
    - simpl. rewrite Hk.
      destruct (dict_lookup kv "reason") as [r |] eqn:Hr.
      + eexists; eexists; split; [reflexivity |]. right. now exists text, kv.
      + eexists; eexists; split; [reflexivity | now left].
    - destruct v; simpl; try (eexists; eexists; split; [reflexivity | now left]).
      now elim (Hv kv). }
  destruct Hex as [reason [tr1 [H Hr]]]. exists reason, tr1.
  split; [exact H |]. split; [exact (Hcmp _ _ H) | exact Hr].
Qed.

(** C10, evaluated where it fails.  The oracle answers the duplicate
    prompt with an object that has no [is_duplicate] key and whose reason
    is the escape [\ud83d], a lone surrogate once parsed.  The comparison
    returns [False] with that reason, as the claim says, but the record
    is not written: line 139 prints verdict and reason between the
    comparison and [resolve_duplicate_status], outside any [try]; on the
    strict UTF-8 console the [print] raises [UnicodeEncodeError], no
    PATCH is sent for record 2, and the cluster stage ends there, with
    record 3 never compared. *)
Theorem unprintable_reason_stops_before_patch :
  are_abstracts_duplicates surrogate_verdict_env (JStr "A") (JStr "B") []
    = (Ret (JBool false, JStr lone_surrogate),
       [EGenerate duplicate_model (DuplicatePrompt (JStr "A") (JStr "B"))])
  /\ compare_member surrogate_verdict_env (JStr "A")
       (clustered_article 2 "B" (JStr "c1")) []
     = (Raise UnicodeEncodeError,
        [EGenerate duplicate_model (DuplicatePrompt (JStr "A") (JStr "B"))])
  /\ resolve_clusters surrogate_verdict_env cluster_c1 []
     = (Raise UnicodeEncodeError,
        [EGenerate duplicate_model (DuplicatePrompt (JStr "A") (JStr "B"))]).
Proof. repeat split. Qed.

(** ** Grouping by cluster id *)

Lemma key_eqb_eq (a b : key) : key_eqb a b = true <-> a = b.
Proof.
  destruct a, b; simpl; split; intro H; try discriminate; try reflexivity.
  - apply Z.eqb_eq in H. now subst.
  - inversion H. apply Z.eqb_refl.
  - apply String.eqb_eq in H. now subst.
  - inversion H. apply String.eqb_refl.
Qed.

Lemma has_key_spec (k : key) (c : json * list json) :
  has_key k c = true <-> entry_key c = Some k.
Proof.
  unfold has_key, entry_key. destruct (key_of (fst c)) as [k' |].
  - rewrite key_eqb_eq. split; intro H; [now subst | now inversion H].
  - split; discriminate.
Qed.

Lemma cluster_append_keys (cl : clusters) (cluster_id : json) (k : key) (a : json) :
  key_of cluster_id = Some k ->
  keys (cluster_append cl cluster_id k a) =
    if in_dec key_eq_dec (Some k) (keys cl) then keys cl else keys cl ++ [Some k].
Proof.
  intro Hk. induction cl as [| c rest IH].
  - simpl. unfold entry_key. simpl. now rewrite Hk.
  - cbn [cluster_append]. destruct (has_key k c) eqn:Hc.
    + apply has_key_spec in Hc.
      destruct (in_dec key_eq_dec (Some k) (keys (c :: rest))) as [Hin | Hnin].
      * reflexivity.
      * elim Hnin. now left.
    + assert (Hne : entry_key c <> Some k).
      { intro H. apply has_key_spec in H. congruence. }
      change (keys (c :: cluster_append rest cluster_id k a))
        with (entry_key c :: keys (cluster_append rest cluster_id k a)).
      rewrite IH.
      destruct (in_dec key_eq_dec (Some k) (keys rest)) as [Hr | Hr];
        destruct (in_dec key_eq_dec (Some k) (keys (c :: rest))) as [Hin | Hnin];
        try reflexivity.
      * elim Hnin. now right.
      * destruct Hin as [Hin | Hin]; contradiction.
Qed.

Lemma cluster_append_members (cl : clusters) (cluster_id : json) (k : key) (a : json) :
  Permutation (members (cluster_append cl cluster_id k a)) (members cl ++ [a]).
Proof.
  unfold members. induction cl as [| c rest IH]; simpl; [reflexivity |].
  destruct (has_key k c); simpl.
  - rewrite <- !app_assoc. apply Permutation_app_head. apply Permutation_app_comm.
  - rewrite <- app_assoc. now apply Permutation_app_head.
Qed.

Lemma cluster_append_keyed (cl : clusters) (cluster_id : json) (k : key) (a : json) :
  key_of cluster_id = Some k -> article_key a = Some k ->
  keyed cl -> keyed (cluster_append cl cluster_id k a).
Proof.
  intros Hk Ha. induction cl as [| c rest IH]; intros Hcl c' m Hc' Hm; simpl in Hc'.
  - destruct Hc' as [<- | []]. simpl in Hm. destruct Hm as [<- | []].
    unfold entry_key. simpl. congruence.
  - assert (Hrest : keyed rest).
    { intros c0 m0 H0. apply Hcl. now right. }
    destruct (has_key k c) eqn:Hc.
    + destruct Hc' as [<- | Hin].
      * simpl in Hm. apply in_app_or in Hm. unfold entry_key. simpl.
        fold (entry_key c). destruct Hm as [Hm | [<- | []]].
        -- apply Hcl; [now left | exact Hm].
        -- apply has_key_spec in Hc. congruence.
      * apply Hcl; [now right | exact Hm].
    + destruct Hc' as [<- | Hin].
      * apply Hcl; [now left | exact Hm].
      * now apply (IH Hrest c' m).
Qed.

Lemma group_step_groupable (cl : clusters) (a : json) :
  groupable a = true ->
  exists cl',
    group_step cl a = Ret cl'
    /\ Permutation (members cl') (members cl ++ filter clustered [a])
    /\ keys cl' = keys cl ++ first_seen (keys cl) (map article_key (filter clustered [a]))
    /\ (keyed cl -> keyed cl').
Proof.
  intro Hg. unfold groupable in Hg.
  destruct (cluster_id_of a) as [cid | e] eqn:Hcid; [| discriminate].
  assert (Hc : clustered a = truthy cid) by (unfold clustered; now rewrite Hcid).
  assert (Hak : article_key a = key_of cid) by (unfold article_key; now rewrite Hcid).
  unfold group_step. rewrite Hcid. simpl obind. cbn [filter]. rewrite Hc.
  destruct (truthy cid) eqn:T.
  - destruct (key_of cid) as [k |] eqn:Hk; [| discriminate].
    exists (cluster_append cl cid k a). split; [reflexivity |]. repeat split.
    + apply cluster_append_members.
    + rewrite cluster_append_keys by assumption. cbn [map first_seen]. rewrite Hak.
      destruct (in_dec key_eq_dec (Some k) (keys cl)); [now rewrite app_nil_r | reflexivity].
    + now apply cluster_append_keyed.
  - exists cl. simpl. rewrite !app_nil_r. now repeat split.
Qed.

Lemma first_seen_app (seen ks1 ks2 : list (option key)) :
  first_seen seen (ks1 ++ ks2) =
    first_seen seen ks1 ++ first_seen (seen ++ first_seen seen ks1) ks2.
Proof.
  revert seen. induction ks1 as [| k ks1 IH]; intro seen; simpl.
  - now rewrite app_nil_r.
  - destruct (in_dec key_eq_dec k seen).
    + apply IH.
    + simpl. rewrite IH. now rewrite <- app_assoc.
Qed.

Lemma group_from_spec (all_articles : list json) :
  forall cl : clusters,
    forallb groupable all_articles = true ->
    exists cl',
      group_from cl all_articles = Ret cl'
      /\ Permutation (members cl') (members cl ++ filter clustered all_articles)
      /\ keys cl' = keys cl ++ first_seen (keys cl)
                                 (map article_key (filter clustered all_articles))
      /\ (keyed cl -> keyed cl').
Proof.
  induction all_articles as [| a rest IH]; intros cl Hall.
  - exists cl. simpl. rewrite !app_nil_r. now repeat split.
  - simpl in Hall. apply andb_prop in Hall. destruct Hall as [Ha Hrest].
    destruct (group_step_groupable cl a Ha) as [cl1 [Hstep [Hperm1 [Hkeys1 Hkeyed1]]]].
    destruct (IH cl1 Hrest) as [cl' [Hrun [Hperm [Hkeys Hkeyed]]]].
    exists cl'. change (group_from cl (a :: rest)) with
      (let? cl0 := group_step cl a in group_from cl0 rest).
    rewrite Hstep. simpl obind. split; [exact Hrun |]. repeat split.
    + change (a :: rest) with ([a] ++ rest). rewrite filter_app, app_assoc.
      rewrite Hperm. apply Permutation_app_tail. exact Hperm1.
    + change (a :: rest) with ([a] ++ rest).
      rewrite filter_app, map_app, first_seen_app, Hkeys, Hkeys1.
      now rewrite <- app_assoc.
    + auto.
Qed.

Lemma first_seen_nodup (ks seen : list (option key)) :
  NoDup seen -> NoDup (seen ++ first_seen seen ks).
Proof.
  revert seen. induction ks as [| k ks IH]; intros seen Hs; simpl.
  - now rewrite app_nil_r.
  - destruct (in_dec key_eq_dec k seen) as [Hin | Hnin]; [now apply IH |].
    change (k :: first_seen (seen ++ [k]) ks) with ([k] ++ first_seen (seen ++ [k]) ks).
    rewrite app_assoc. apply IH.
    apply NoDup_app; [exact Hs | repeat constructor; intros [] | ].
    intros x Hx [<- | []]. contradiction.
Qed.

Lemma nodup_map_injective {A B} (f : A -> B) (l : list A) (x y : A) :
  NoDup (map f l) -> In x l -> In y l -> f x = f y -> x = y.
Proof.
  induction l as [| z l IH]; simpl; intros Hnd Hx Hy Hxy; [contradiction |].
  inversion Hnd as [| ? ? Hz Hl]. subst.
  destruct Hx as [<- | Hx], Hy as [<- | Hy]; auto.
  - elim Hz. rewrite Hxy. now apply in_map.
  - elim Hz. rewrite <- Hxy. now apply in_map.
Qed.

(** C7, as amended.  On every sequence of records on which the grouping
    loop does not raise, the clusters hold, with their multiplicity,
    exactly the records whose [cluster_id] is truthy: the records left
    out are those whose [cluster_id] is absent, [None], or another falsy
    value (0, [False], the empty string).  The cluster keys are pairwise
    distinct, every member carries the key of its cluster, so no record
    is in two clusters, and every record with a truthy [cluster_id] is in
    one. *)
Theorem grouping_keeps_truthy_cluster_ids (all_articles : list json) :
  forallb groupable all_articles = true ->
  exists cl : clusters,
    group_by_cluster all_articles = Ret cl
    /\ Permutation (members cl) (filter clustered all_articles)
    /\ NoDup (keys cl)
    /\ (forall c m, In c cl -> In m (snd c) -> article_key m = entry_key c)
    /\ (forall c1 c2 m,
          In c1 cl -> In c2 cl -> In m (snd c1) -> In m (snd c2) -> c1 = c2)
    /\ (forall a, In a all_articles -> clustered a = true ->
                  exists c, In c cl /\ In a (snd c)).
Proof.
  intro Hall. destruct (group_from_spec all_articles [] Hall)
    as [cl [Hrun [Hperm [Hkeys Hkeyed]]]].
  simpl in Hperm, Hkeys.
  assert (Hk : keyed cl) by (apply Hkeyed; intros c m []).
  assert (Hnd : NoDup (keys cl)).
  { rewrite Hkeys. apply (first_seen_nodup _ []). constructor. }
  exists cl. repeat split; auto.
  - intros c1 c2 m H1 H2 Hm1 Hm2.
    apply (nodup_map_injective entry_key cl); auto.
    rewrite <- (Hk c1 m H1 Hm1). now apply Hk.
  - intros a Ha Hc.
    assert (Hin : In a (members cl)).
    { apply (Permutation_in a (Permutation_sym Hperm)).
      apply filter_In. now split. }
    unfold members in Hin. apply in_concat in Hin.
    destruct Hin as [ms [Hms Hams]]. apply in_map_iff in Hms.
    destruct Hms as [c [<- Hc']]. now exists c.
Qed.

(** ** Processing the clusters *)

Lemma patch_targets_app (tr1 tr2 : trace) :
  patch_targets (tr1 ++ tr2) = patch_targets tr1 ++ patch_targets tr2.
Proof.
  induction tr1 as [| e tr1 IH]; simpl; [reflexivity |].
  destruct e; simpl; now rewrite IH.
Qed.

Lemma prompts_app (tr1 tr2 : trace) :
  prompts (tr1 ++ tr2) = prompts tr1 ++ prompts tr2.
Proof.
  induction tr1 as [| e tr1 IH]; simpl; [reflexivity |].
  destruct e; simpl; now rewrite IH.
Qed.

Lemma readable_reads (m : json) :
  readable m = true ->
  py_get m "id" JNull = Ret (id_of m) /\ first_abstract m = Ret (abstract_of m).
Proof.
  unfold readable, id_of, abstract_of.
  destruct (py_get m "id" JNull); [| discriminate].
  destruct (first_abstract m); [| discriminate]. now split.
Qed.

Lemma patch_targets_comparison (anchor other : json) (action : Z) :
  patch_targets (comparison_events anchor other action) = [id_of other].
Proof.
  unfold comparison_events, comparison_call. rewrite patch_targets_app.
  now destruct (both_present (abstract_of anchor) (abstract_of other)).
Qed.

(** One comparison: the call of the oracle, if any; then the [print] of
    line 139; then, when it did not raise, the PATCH for the other record
    and the delay. *)
Lemma compare_member_cases (E : env) (anchor other : json) (tr : trace) :
  readable other = true ->
  exists is_dup reason : json,
    are_abstracts_duplicates E (abstract_of anchor) (abstract_of other) tr
      = (Ret (is_dup, reason), tr ++ comparison_call anchor other)
    /\ compare_member E (abstract_of anchor) other tr =
         (if prints_ok E is_dup && prints_ok E reason
          then (Ret tt,
                tr ++ comparison_events anchor other (if truthy is_dup then 1 else 2))
          else (Raise UnicodeEncodeError, tr ++ comparison_call anchor other)).
Proof.
  intro Hr. destruct (readable_reads _ Hr) as [Hid Habs].
  destruct (are_abstracts_duplicates_returns E (abstract_of anchor)
              (abstract_of other) tr) as [[is_dup reason] Hrun].
  exists is_dup, reason. split; [exact Hrun |].
  unfold compare_member, resolve_duplicate_status, comparison_events. run_task.
  rewrite Hid, Habs, Hrun. simpl. rewrite andb_true_r.
  destruct (prints_ok E is_dup && prints_ok E reason); [| reflexivity].
  now rewrite <- !app_assoc.
Qed.

(** The members of a cluster after its anchor, read off a run of blocks *)
Lemma compare_all_resolves (E : env) (anchor : json) (others : list json) :
  Forall (fun m => readable m = true) others ->
  forall (tr evs : trace),
    resolves E tr (map (pair anchor) others) evs ->
    for_each (compare_member E (abstract_of anchor)) others tr = (Ret tt, tr ++ evs).
Proof.
  induction others as [| o others IH]; intros Hall tr evs Hres.
  - inversion Hres. subst. simpl. unfold ret. now rewrite app_nil_r.
  - inversion Hall as [| ? ? Ho Hothers]. subst.
    simpl in Hres. inversion Hres as [| ? tr1 ? ? d r ? evs' Hrun Hd Hreason Hrest]. subst.
    destruct (compare_member_cases E anchor o tr Ho) as [d' [r' [Hrun' Hcmp]]].
    rewrite Hrun in Hrun'. inversion Hrun'. subst d' r'.
    rewrite Hd, Hreason in Hcmp. simpl in Hcmp.
    simpl. unfold bind. rewrite Hcmp. rewrite (IH Hothers _ _ Hrest).
    now rewrite app_assoc.
Qed.

Lemma resolves_app (E : env) (pairs more : list (json * json)) :
  forall (tr evs : trace),
    resolves E tr (pairs ++ more) evs ->
    exists evs1 evs2,
      evs = evs1 ++ evs2
      /\ resolves E tr pairs evs1
      /\ resolves E (tr ++ evs1) more evs2.
Proof.
  induction pairs as [| p pairs IH]; intros tr evs Hres.
  - exists [], evs. rewrite app_nil_r. repeat split; [constructor | exact Hres].
  - simpl in Hres. inversion Hres as [| ? tr1 a o d r ? evs' Hrun Hd Hreason Hrest]. subst.
    destruct (IH _ _ Hrest) as [evs1 [evs2 [-> [H1 H2]]]].
    exists (comparison_events a o (if truthy d then 1 else 2) ++ evs1), evs2.
    rewrite <- !app_assoc in *. repeat split; [| exact H2].
    now apply resolves_cons with (tr1 := tr1) (reason := r).
Qed.

Lemma process_cluster_resolves (E : env) (c : json * list json) :
  Forall (fun m => readable m = true) (snd c) ->
  forall (tr evs : trace),
    resolves E tr (comparisons c) evs ->
    process_cluster E c tr = (Ret tt, tr ++ evs).
Proof.
  intros Hall tr evs. unfold process_cluster, comparisons, compared.
  destruct (Z.of_nat (List.length (snd c)) <? 2) eqn:Hlen.
  - intro Hres. assert (Hnil : evs = []).
    { destruct (snd c); inversion Hres; reflexivity. }
    subst evs. unfold ret. now rewrite app_nil_r.
  - destruct (snd c) as [| anchor others] eqn:Hc; [discriminate |].
    inversion Hall as [| ? ? Ha Hothers]. subst.
    destruct (readable_reads _ Ha) as [Hid Habs].
    intro Hres. simpl in Hres. run_task. rewrite Hid, Habs.
    now apply compare_all_resolves.
Qed.

Lemma process_clusters_resolves (E : env) (cl : clusters) :
  Forall (fun c => Forall (fun m => readable m = true) (snd c)) cl ->
  forall (tr evs : trace),
    resolves E tr (flat_map comparisons cl) evs ->
    for_each (process_cluster E) cl tr = (Ret tt, tr ++ evs).
Proof.
  induction cl as [| c cl IH]; intros Hall tr evs Hres.
  - inversion Hres. subst. simpl. unfold ret. now rewrite app_nil_r.
  - inversion Hall as [| ? ? Hc Hcl]. subst.
    simpl in Hres. apply resolves_app in Hres.
    destruct Hres as [evs1 [evs2 [-> [H1 H2]]]].
    simpl. unfold bind.
    rewrite (process_cluster_resolves E c Hc _ _ H1), (IH Hcl _ _ H2).
    now rewrite app_assoc.
Qed.





(** On a console that encodes every text the run of blocks exists,
    whatever the oracle answers. *)
Lemma resolves_total (E : env) (pairs : list (json * json)) :
  (forall s, stdout_encodes E s = true) ->
  forall tr : trace, exists evs, resolves E tr pairs evs.
Proof.
  intro Hall. induction pairs as [| [anchor other] pairs IH]; intro tr.
  - exists []. constructor.
  - destruct (are_abstracts_duplicates_returns E (abstract_of anchor)
                (abstract_of other) tr) as [[d r] Hrun].
    destruct (IH (tr ++ comparison_events anchor other (if truthy d then 1 else 2)))
      as [evs Hevs].
    eexists. eapply resolves_cons; eauto using prints_ok_encodes_all.
Qed.

(** The PATCH calls of a run of blocks: one per pair, for the other
    record, in order *)
Lemma resolves_patch_targets (E : env) (pairs : list (json * json)) :
  forall (tr evs : trace),
    resolves E tr pairs evs ->
    patch_targets evs = map (fun p => id_of (snd p)) pairs.
Proof.
  induction pairs as [| p pairs IH]; intros tr evs Hres; inversion Hres; subst.
  - reflexivity.
  - rewrite patch_targets_app, patch_targets_comparison. simpl. f_equal. eauto.
Qed.

Lemma comparisons_others (cl : clusters) :
  map snd (flat_map comparisons cl) = flat_map compared cl.
Proof.
  induction cl as [| c cl IH]; simpl; [reflexivity |].
  rewrite map_app, IH. f_equal.
  unfold comparisons, compared. destruct (snd c) as [| anchor others].
  - now destruct (Z.of_nat (List.length (@nil json)) <? 2).
  - rewrite map_map. simpl. apply map_id.
Qed.




(** * The properties at concrete inputs *)

(** C1 at a record with no title: excluded for missing data without any
    call. *)
Lemma missing_data_short_circuit_witness :
  (py_get untitled_record "title" (JStr "") = Ret (JStr "")
   /\ read_abstract untitled_record = Ret (JStr "A"))
  /\ (get_ai_decision silent_env untitled_record [] = (Ret missing_data, [])
      /\ oracle_calls (snd (get_ai_decision silent_env untitled_record []))
         = oracle_calls []).
Proof.
  split; [split; reflexivity |].
  apply (missing_data_short_circuit silent_env untitled_record (JStr "") (JStr "A") []).
  - reflexivity.
  - reflexivity.
  - left. reflexivity.
Defined.

(** The same record with its abstracts emptied and a title *)
Example empty_abstract_example :
  get_ai_decision silent_env (JObj [("id", JNum 8); ("title", JStr "T");
                                    ("abstracts", JArr [])]) []
  = (Ret missing_data, []).
Proof. reflexivity. Qed.

(** C3 as stated fails: the oracle answers [include] with the reason
    [Good]; the dict that [get_ai_decision] returns still holds that
    reason, and line 248 of [main] reads it back. *)
Lemma include_keeps_supplied_reason :
  fst (get_ai_decision include_with_reason_env record1 [])
  = Ret (JObj [("decision", JStr "include"); ("reason", JStr "Good")])
  /\ (let? ai_result := fst (get_ai_decision include_with_reason_env record1 []) in
      py_get ai_result "decision" (JStr "maybe")) = Ret (JStr "include")
  /\ (let? ai_result := fst (get_ai_decision include_with_reason_env record1 []) in
      py_get ai_result "reason" JNull) = Ret (JStr "Good").
Proof. repeat split. Qed.

(** C3 as amended, on the same answer *)
Lemma valid_decision_returned_unchanged_witness :
  get_ai_decision include_with_reason_env record1 [] =
    (Ret (JObj [("decision", JStr "include"); ("reason", JStr "Good")]),
     [] ++ [EGenerate screening_model (ScreeningPrompt (JStr "T") (JStr "A"))])
  /\ py_get (JObj [("decision", JStr "include"); ("reason", JStr "Good")])
       "decision" (JStr "maybe") = Ret (JStr "include")
  /\ py_get (JObj [("decision", JStr "include"); ("reason", JStr "Good")])
       "reason" JNull = Ret (JStr "Good")
  /\ forall (article_id reason : json) (tr' : trace),
       update_article_status include_with_reason_env article_id (JStr "include") reason tr' =
         (Ret tt, tr' ++ [EPost (customize_payload article_id (plan1 "included" 1))]).
Proof.
  apply (valid_decision_returned_unchanged include_with_reason_env record1
           (JStr "T") (JStr "A") (JStr "include") []
           (js "{'decision':'include','reason':'Good'}")
           [("decision", JStr "include"); ("reason", JStr "Good")]);
    reflexivity.
Defined.


(** The whole run of that example: one record written, then the empty
    batch ends the loop with the cursor at 1. *)
Example one_batch_run :
  main_loop one_batch_env 5 0 [] =
    Finished NoMoreArticles 1
      [ESearch (undecided_payload 0 50);
       EGenerate screening_model (ScreeningPrompt (JStr "T") (JStr "A"));
       EPost (customize_payload (JNum 1) (plan1 "__EXR__Not RCT" 1));
       ESleep 6;
       ESearch (undecided_payload 1 50)].
Proof. reflexivity. Qed.

(** A platform that does not answer stops the run with the cursor where
    it was. *)
Example failed_fetch_run :
  main_loop silent_env 5 0 [] = Finished FetchFailed 0 [ESearch (undecided_payload 0 50)].
Proof. reflexivity. Qed.

(** The writer at the reason [Not RCT] for record 1 *)
Example not_rct_is_posted :
  update_article_status silent_env (JNum 1) (JStr "exclude") (JStr "Not RCT") [] =
    (Ret tt, [EPost (customize_payload (JNum 1) (plan1 "__EXR__Not RCT" 1))]).
Proof. reflexivity. Qed.



(** The run of blocks of the cluster [c1]: both verdicts print. *)
Example cluster_c1_blocks :
  resolves strict_c1_env []
    (flat_map comparisons [(JStr "c1", cluster_c1)])
    [EGenerate duplicate_model (DuplicatePrompt (JStr "A") (JStr "B"));
     EPatch (JNum 2) (duplicate_payload 1);
     ESleep 5;
     EGenerate duplicate_model (DuplicatePrompt (JStr "A") (JStr "C"));
     EPatch (JNum 3) (duplicate_payload 2);
     ESleep 5].
Proof.
  apply (resolves_cons strict_c1_env []
           [EGenerate duplicate_model (DuplicatePrompt (JStr "A") (JStr "B"))]
           (clustered_article 1 "A" (JStr "c1")) (clustered_article 2 "B" (JStr "c1"))
           (JBool true) (JStr "same study")); try reflexivity.
  apply (resolves_cons strict_c1_env _
           [EGenerate duplicate_model (DuplicatePrompt (JStr "A") (JStr "B"));
            EPatch (JNum 2) (duplicate_payload 1); ESleep 5;
            EGenerate duplicate_model (DuplicatePrompt (JStr "A") (JStr "C"))]
           (clustered_article 1 "A" (JStr "c1")) (clustered_article 3 "C" (JStr "c1"))
           (JBool false) (JStr "different cohort") [] []); try reflexivity.
  constructor.
Qed.

(** The calls made for the cluster [c1]: record 2 is confirmed a
    duplicate, record 3 confirmed not a duplicate, record 1 is not
    written. *)
Example cluster_c1_run :
  resolve_clusters cluster_c1_env cluster_c1 [] =
    (Ret tt,
     [EGenerate duplicate_model (DuplicatePrompt (JStr "A") (JStr "B"));
      EPatch (JNum 2) (duplicate_payload 1);
      ESleep 5;
      EGenerate duplicate_model (DuplicatePrompt (JStr "A") (JStr "C"));
      EPatch (JNum 3) (duplicate_payload 2);
      ESleep 5]).
Proof. reflexivity. Qed.

(** C7 as stated fails: both records carry the cluster id 0, a value that
    is present, and the grouping files neither of them. *)
Lemma cluster_id_zero_is_dropped :
  map cluster_id_of cluster_zero = [Ret (JNum 0); Ret (JNum 0)]
  /\ group_by_cluster cluster_zero = Ret [].
Proof. split; reflexivity. Qed.

(** C7 as amended, on the cluster [c1] followed by the two records with
    the cluster id 0 *)
Lemma grouping_keeps_truthy_cluster_ids_witness :
  exists cl : clusters,
    group_by_cluster (cluster_c1 ++ cluster_zero) = Ret cl
    /\ Permutation (members cl) (filter clustered (cluster_c1 ++ cluster_zero))
    /\ NoDup (keys cl)
    /\ (forall c m, In c cl -> In m (snd c) -> article_key m = entry_key c)
    /\ (forall c1 c2 m,
          In c1 cl -> In c2 cl -> In m (snd c1) -> In m (snd c2) -> c1 = c2)
    /\ (forall a, In a (cluster_c1 ++ cluster_zero) -> clustered a = true ->
                  exists c, In c cl /\ In a (snd c)).
Proof.
  apply (grouping_keeps_truthy_cluster_ids (cluster_c1 ++ cluster_zero)).
  reflexivity.
Defined.

Example mixed_grouping :
  group_by_cluster (cluster_c1 ++ cluster_zero) = Ret [(JStr "c1", cluster_c1)].
Proof. reflexivity. Qed.

(** C8 with both files present and a probe answered 401: the setup is
    run. *)
Lemma setup_iff_file_absent_or_probe_invalid_witness :
  exists (b : bool) (tr' : trace),
    should_run_setup expired_env saved_session [] = (Ret b, tr')
    /\ (b = true <->
        auth_file saved_session = None \/ headers_file saved_session = None
        \/ api_fetch expired_env [] probe_payload = None
        \/ exists r, api_fetch expired_env [] probe_payload = Some r /\ status r = 401)
    /\ (auth_file saved_session = None \/ headers_file saved_session = None -> tr' = []).
Proof.
  apply (setup_iff_file_absent_or_probe_invalid expired_env saved_session []).
  right. right. exists "{}", (js "{'authorization':'Bearer t'}").
  exists (JObj [("authorization", JStr "Bearer t")]). repeat split.
Defined.

Example expired_session_runs_setup :
  should_run_setup expired_env saved_session [] = (Ret true, [ESearch probe_payload]).
Proof. reflexivity. Qed.

(** A probe answered with status 500 keeps the session, and a missing
    headers file runs the setup without a probe. *)
Example server_error_keeps_session :
  should_run_setup (example_env [] [Some (mkResponse 500 false "")]) saved_session []
  = (Ret false, [ESearch probe_payload]).
Proof. reflexivity. Qed.

Example missing_headers_file_runs_setup :
  should_run_setup expired_env (mkFiles (Some "{}") None) [] = (Ret true, []).
Proof. reflexivity. Qed.

(** C9 on four requests: the third is the first that qualifies, and the
    fourth, which qualifies too, changes nothing. *)
Lemma header_capture_first_match_wins_witness :
  (List.length (snd (observe "42" setup_requests Pending)) <= 1)%nat.
Proof.
  apply (proj1 (header_capture_first_match_wins "42" setup_requests)).
Defined.

Example setup_requests_capture :
  observe "42" setup_requests Pending =
    (Resolved [("Authorization", "Bearer one"); ("X-Csrf", "k")],
     [[("Authorization", "Bearer one"); ("X-Csrf", "k")]]).
Proof. reflexivity. Qed.

(** When the oracle answers with prose the record is written as not a
    duplicate. *)
Example prose_is_not_duplicate :
  compare_member prose_env (JStr "A") (clustered_article 2 "B" (JStr "c1")) []
  = (Ret tt,
     [EGenerate duplicate_model (DuplicatePrompt (JStr "A") (JStr "B"));
      EPatch (JNum 2) (duplicate_payload 2); ESleep 5]).
Proof. reflexivity. Qed.

Example empty_abstract_not_duplicate :
  compare_member prose_env (JStr "A")
    (JObj [("id", JNum 9); ("abstracts", JArr [])]) []
  = (Ret tt, [EPatch (JNum 9) (duplicate_payload 2); ESleep 5]).
Proof. reflexivity. Qed.

(** * Further properties of the two scripts *)

Ltac run_goal :=
  unfold invalid_json_from_ai, print_values, ask, post, sleep, bind, lift, ret,
    raise, try_except, emit.

(** ** What [get_ai_decision] can return *)

Lemma post_targets_app (tr1 tr2 : trace) :
  post_targets (tr1 ++ tr2) = post_targets tr1 ++ post_targets tr2.
Proof.
  induction tr1 as [| e tr1 IH]; simpl; [reflexivity |].
  destruct e; simpl; try now rewrite IH.
  destruct (py_get payload "article_id" JNull); simpl; now rewrite IH.
Qed.

Lemma sleeps_app (tr1 tr2 : trace) :
  sleeps (tr1 ++ tr2) = sleeps tr1 ++ sleeps tr2.
Proof.
  induction tr1 as [| e tr1 IH]; simpl; [reflexivity |].
  destruct e; simpl; now rewrite IH.
Qed.

Lemma is_include_or_exclude_cases (d : json) :
  is_include_or_exclude d = true -> d = JStr "include" \/ d = JStr "exclude".
Proof.
  unfold is_include_or_exclude. intro H. apply orb_prop in H.
  destruct H as [H | H]; apply py_eq_str_true in H; auto.
Qed.

Lemma fixed_answers_known :
  known_decision missing_data /\ known_decision ai_empty_response
  /\ known_decision ai_format_error /\ known_decision api_call_error.
Proof.
  repeat split; eexists; eexists; (split; [reflexivity |]); (split; [reflexivity |]); auto.
Qed.

(** Whatever the oracle does, a result of [get_ai_decision] is a dict
    with a known decision, reached with no call of the oracle or with
    one. *)
Lemma get_ai_decision_result
  (E : env) (article d : json) (tr tr' : trace) :
  get_ai_decision E article tr = (Ret d, tr') ->
  known_decision d
  /\ exists title abstract,
       py_get article "title" (JStr "") = Ret title
       /\ read_abstract article = Ret abstract
       /\ tr' = tr ++ if truthy title && truthy abstract
                      then [EGenerate screening_model (ScreeningPrompt title abstract)]
                      else [].
Proof.
  destruct fixed_answers_known as [K1 [K2 [K3 K4]]].
  unfold get_ai_decision, get_ai_decision_try, get_ai_decision_except, loads. run_task.
  destruct (py_get article "title" (JStr "")) as [title | e]; [| discriminate].
  destruct (read_abstract article) as [abstract | e]; [| discriminate].
  destruct (truthy title) eqn:Tt; simpl.
  2:{ intro H. inversion H. subst. split; [exact K1 |].
      exists title, abstract. rewrite Tt. simpl. now rewrite app_nil_r. }
  destruct (truthy abstract) eqn:Ta; simpl.
  2:{ intro H. inversion H. subst. split; [exact K1 |].
      exists title, abstract. rewrite Tt, Ta. simpl. now rewrite app_nil_r. }
  assert (Hhandler : forall tr1,
             match py_item article "id" with
             | Ret _ => (Ret api_call_error, tr1)
             | Raise e => (Raise e, tr1)
             end = (Ret d, tr') -> d = api_call_error /\ tr' = tr1).
  { intros tr1 H. destruct (py_item article "id"); inversion H. now split. }
  intro H.
  assert (Hd : known_decision d
               /\ tr' = tr ++ [EGenerate screening_model (ScreeningPrompt title abstract)]).
  { destruct (generate_content E tr screening_model _) as [| [text |]].
    - apply Hhandler in H. destruct H as [-> ->]. now split.
    - destruct (json_loads E (clean_response text)) as [dj |].
      + destruct (py_in "decision" dj) as [[|] | e] eqn:Hin.
        * destruct (py_item dj "decision") as [d0 | e] eqn:Hitem.
          -- destruct (is_include_or_exclude d0) eqn:Hio.
             ++ inversion H; subst. split; [| reflexivity].
                destruct d; try discriminate. simpl in Hitem.
                destruct (dict_lookup kv "decision") as [v |] eqn:Hl; [| discriminate].
                inversion Hitem. subst v.
                apply is_include_or_exclude_cases in Hio.
                destruct Hio as [-> | ->]; eexists; eexists; eauto.
             ++ destruct (text_prints E (clean_response text)); simpl in H.
                ** inversion H. now split.
                ** apply Hhandler in H. destruct H as [-> ->]. now split.
          -- apply Hhandler in H. destruct H as [-> ->]. now split.
        * destruct (text_prints E (clean_response text)); simpl in H.
          -- inversion H. now split.
          -- apply Hhandler in H. destruct H as [-> ->]. now split.
        * apply Hhandler in H. destruct H as [-> ->]. now split.
      + apply Hhandler in H. destruct H as [-> ->]. now split.
    - inversion H. now split. }
  destruct Hd as [Hk ->]. split; [exact Hk |].
  exists title, abstract. now rewrite Tt, Ta.
Qed.

(** ** One record of a batch *)

(** With a known decision the writer posts once, for the id it is given,
    one of its four plans; or it is stopped by the [print] of line 124 on
    a reason the console cannot show. *)
Lemma update_article_status_known
  (E : env) (article_id reason : json) (s : string) (tr : trace) :
  s = "include" \/ s = "exclude" \/ s = "maybe" ->
  (exists plan,
     known_plan plan
     /\ update_article_status E article_id (JStr s) reason tr =
          (Ret tt, tr ++ [EPost (customize_payload article_id plan)]))
  \/ (s = "exclude" /\ truthy reason = true /\ prints_ok E reason = false
      /\ update_article_status E article_id (JStr s) reason tr =
           (Raise UnicodeEncodeError, tr)).
Proof.
  unfold known_plan.
  intros [-> | [-> | ->]]; unfold update_article_status; run_goal; simpl.
  - left. eexists. split; [| reflexivity]. auto.
  - destruct (truthy reason) eqn:T.
    + rewrite andb_true_r. destruct (prints_ok E reason) eqn:P.
      * left. eexists. split; [| reflexivity]. right. right. right. eauto.
      * right. auto.
    + left. eexists. split; [| reflexivity]. auto.
  - left. eexists. split; [| reflexivity]. auto.
Qed.

(** A record that is processed without an exception: the call of the
    oracle when title and abstract are there, then one POST of a known
    plan for the record's id, then the delay of six seconds. *)
Lemma process_article_block (E : env) (article : json) (tr tr' : trace) :
  process_article E article tr = (Ret tt, tr') ->
  exists block, tr' = tr ++ block /\ screening_block article block.
Proof.
  unfold process_article, screening_block, screening_call, id_of. run_task.
  destruct (py_get article "id" JNull) as [article_id | e]; [| discriminate].
  destruct (py_get article "title" (JStr "No Title")) as [title | e]; [| discriminate].
  destruct (py_slice title) as [[] | e]; [| discriminate].
  destruct (get_ai_decision E article tr) as [[d | e] tr1] eqn:Hg; [| discriminate].
  apply get_ai_decision_result in Hg.
  destruct Hg as [[kv [s [-> [Hs Hcases]]]] [t [a [Ht [Ha ->]]]]].
  simpl. rewrite Hs, Ht, Ha.
  destruct (update_article_status_known E article_id
              (match dict_lookup kv "reason" with Some v => v | None => JNull end)
              s (tr ++ if truthy t && truthy a
                       then [EGenerate screening_model (ScreeningPrompt t a)] else [])
              Hcases) as [[plan [Hk Hp]] | [_ [_ [_ Hp]]]]; rewrite Hp; [| discriminate].
  intro H. inversion H. eexists. split; [| exists plan; split; [exact Hk | reflexivity]].
  now rewrite <- !app_assoc.
Qed.

Lemma process_article_shape (E : env) (article : json) (tr tr' : trace) :
  process_article E article tr = (Ret tt, tr') ->
  exists pre plan,
    tr' = tr ++ pre ++ [EPost (customize_payload (id_of article) plan); ESleep 6]
    /\ (pre = []
        \/ exists title abstract,
             pre = [EGenerate screening_model (ScreeningPrompt title abstract)]).
Proof.
  intro H. apply process_article_block in H.
  destruct H as [block [-> [plan [_ ->]]]].
  exists (screening_call article), plan. split; [reflexivity |].
  unfold screening_call.
  destruct (py_get article "title" (JStr "")) as [t |]; [| now left].
  destruct (read_abstract article) as [a |]; [| now left].
  destruct (truthy t && truthy a); [right; now exists t, a | now left].
Qed.

(** A batch that is processed to its end: one block per record, in the
    order of the batch. *)
Lemma for_each_process_article_blocks (E : env) (l : list json) :
  forall tr tr' : trace,
    for_each (process_article E) l tr = (Ret tt, tr') ->
    exists blocks,
      tr' = tr ++ List.concat blocks /\ Forall2 screening_block l blocks.
Proof.
  induction l as [| x l IH]; intros tr tr' H.
  - simpl in H. unfold ret in H. inversion H. exists []. simpl.
    rewrite app_nil_r. split; [reflexivity | constructor].
  - simpl in H. unfold bind in H.
    destruct (process_article E x tr) as [[[] | e] tr1] eqn:Hx; [| discriminate].
    apply process_article_block in Hx. destruct Hx as [block [-> Hblock]].
    apply IH in H. destruct H as [blocks [-> Hblocks]].
    exists (block :: blocks). simpl. rewrite <- app_assoc.
    split; [reflexivity | now constructor].
Qed.

Lemma for_each_process_article_shape (E : env) (l : list json) :
  forall tr tr' : trace,
    for_each (process_article E) l tr = (Ret tt, tr') ->
    exists evs,
      tr' = tr ++ evs
      /\ post_targets evs = map id_of l
      /\ sleeps evs = map (fun _ => 6) l
      /\ patch_targets evs = []
      /\ (List.length (prompts evs) <= List.length l)%nat
      /\ Forall (fun p => fst p = screening_model) (prompts evs).
Proof.
  induction l as [| x l IH]; intros tr tr' H.
  - simpl in H. unfold ret in H. inversion H. exists []. rewrite app_nil_r.
    repeat split; auto.
  - simpl in H. unfold bind in H.
    destruct (process_article E x tr) as [[[] | e] tr1] eqn:Hx; [| discriminate].
    apply process_article_shape in Hx. destruct Hx as [pre [plan [-> Hpre]]].
    apply IH in H. destruct H as [evs [-> [P [S [Q [N F]]]]]].
    exists ((pre ++ [EPost (customize_payload (id_of x) plan); ESleep 6]) ++ evs).
    rewrite !post_targets_app, !sleeps_app, !patch_targets_app, !prompts_app, P, S, Q.
    split; [now rewrite <- !app_assoc |].
    destruct Hpre as [-> | [t [a ->]]]; simpl; repeat split; auto; try lia.
Qed.

Lemma well_formed_record_reads (article : json) :
  well_formed_record article = true ->
  exists kv id title abstract,
    article = JObj kv
    /\ dict_lookup kv "id" = Some id
    /\ py_get article "id" JNull = Ret id
    /\ py_item article "id" = Ret id
    /\ py_get article "title" (JStr "") = Ret title
    /\ (py_get article "title" (JStr "No Title") = Ret title
        \/ (title = JStr "" /\ py_get article "title" (JStr "No Title") = Ret (JStr "No Title")))
    /\ (exists s, title = JStr s)
    /\ read_abstract article = Ret abstract.
Proof.
  destruct article as [| | | | | kv]; try discriminate. unfold well_formed_record.
  intro H. apply andb_prop in H. destruct H as [H Ha].
  apply andb_prop in H. destruct H as [Hid Ht].
  destruct (dict_lookup kv "id") as [id |] eqn:Eid; [| discriminate].
  destruct (read_abstract (JObj kv)) as [abstract | e] eqn:Ea; [| discriminate].
  destruct (dict_lookup kv "title") as [t |] eqn:Et.
  - destruct t; try discriminate.
    exists kv, id, (JStr s), abstract. simpl. rewrite Eid, Et.
    repeat split; auto. now exists s.
  - exists kv, id, (JStr ""), abstract. simpl. rewrite Eid, Et.
    repeat split; auto. now exists "".
Qed.





(** X5.  A title that is present and is [null], a number or a boolean
    stops the whole run: the slice [title[:70]] of line 241 raises
    [TypeError] on the record before the oracle is asked, nothing catches
    it, and when the record comes first in its batch the run ends with
    the fetch as its only call.  (A record with no [title] key at all is
    processed: it reads as [No Title] there.) *)
Theorem unsliceable_title_stops_the_run
  (E : env) (i : Z) (tr : trace) (kv : list (string * json)) (t : json)
  (rest : list json) (fuel : nat) :
  fetched_articles E i tr = Some (Ret (JArr (JObj kv :: rest))) ->
  dict_lookup kv "title" = Some t ->
  t = JNull \/ (exists b, t = JBool b) \/ (exists z, t = JNum z) ->
  process_article E (JObj kv) tr = (Raise TypeError, tr)
  /\ main_loop E (S fuel) i tr =
       Crashed TypeError (tr ++ [ESearch (undecided_payload i batch_size)]).
Proof.
  intros Hf Ht Hcases.
  assert (Hslice : py_slice t = Raise TypeError).
  { destruct Hcases as [-> | [[b ->] | [z ->]]]; reflexivity. }
  assert (Hp : forall tr0, process_article E (JObj kv) tr0 = (Raise TypeError, tr0)).
  { intro tr0. unfold process_article. run_goal. simpl py_get. rewrite Ht.
    cbv iota beta. now rewrite Hslice. }
  split; [apply Hp |].
  simpl main_loop. rewrite loop_body_cases, Hf. simpl truthy. cbv iota.
  simpl for_each. unfold bind. now rewrite Hp.
Qed.

Lemma get_ai_decision_total (E : env) (article : json) (tr : trace) :
  well_formed_record article = true ->
  exists d tr', get_ai_decision E article tr = (Ret d, tr').
Proof.
  intro Hwf.
  destruct (well_formed_record_reads article Hwf)
    as [kv [id [t [a [-> [Hid [Hgid [Hiid [Ht [Hnt [_ Ha]]]]]]]]]]].
  unfold get_ai_decision, get_ai_decision_try, get_ai_decision_except, loads.
  run_goal. rewrite Ht, Ha.
  destruct (negb (truthy t) || negb (truthy a)); [eauto |].
  destruct (generate_content E tr screening_model _) as [| [text |]];
    rewrite ?Hiid; eauto.
  destruct (json_loads E (clean_response text)) as [dj |]; rewrite ?Hiid; eauto.
  destruct (py_in "decision" dj) as [[|] | e]; rewrite ?Hiid; eauto.
  - destruct (py_item dj "decision") as [d0 | e]; rewrite ?Hiid; eauto.
    destruct (is_include_or_exclude d0); eauto.
    simpl. destruct (text_prints E (clean_response text)); simpl;
      rewrite ?Hiid; eauto.
  - simpl. destruct (text_prints E (clean_response text)); simpl;
      rewrite ?Hiid; eauto.
Qed.

Lemma process_article_total (E : env) (article : json) (tr : trace) :
  (forall s, stdout_encodes E s = true) ->
  well_formed_record article = true ->
  exists tr', process_article E article tr = (Ret tt, tr').
Proof.
  intros Hall Hwf.
  destruct (get_ai_decision_total E article tr Hwf) as [d [tr1 Hg]].
  destruct (get_ai_decision_result E article d tr tr1 Hg)
    as [[kvd [s [-> [Hs Hcases]]]] _].
  destruct (well_formed_record_reads article Hwf)
    as [kv [id [t [a [-> [Hid [Hgid [Hiid [Ht [Hnt [[s0 ->] Ha]]]]]]]]]]].
  assert (Hslice : exists t', py_get (JObj kv) "title" (JStr "No Title") = Ret (JStr t')).
  { destruct Hnt as [H | [_ H]]; eauto. }
  destruct Hslice as [t' Hnt'].
  unfold process_article. run_goal. rewrite Hgid, Hnt'. simpl py_slice. cbv iota beta.
  rewrite Hg. simpl py_get. rewrite Hs.
  destruct (update_article_status_known E id
              (match dict_lookup kvd "reason" with Some v => v | None => JNull end)
              s tr1 Hcases) as [[plan [_ Hp]] | [_ [_ [Hno _]]]].
  - rewrite Hp. eauto.
  - rewrite (prints_ok_encodes_all E _ Hall) in Hno. discriminate.
Qed.

Lemma for_each_process_article_total (E : env) (l : list json) :
  (forall s, stdout_encodes E s = true) ->
  forallb well_formed_record l = true ->
  forall tr, exists tr', for_each (process_article E) l tr = (Ret tt, tr').
Proof.
  intro Henc. induction l as [| x l IH]; intros Hall tr.
  - exists tr. reflexivity.
  - simpl in Hall. apply andb_prop in Hall. destruct Hall as [Hx Hl].
    destruct (process_article_total E x tr Henc Hx) as [tr1 H1].
    destruct (IH Hl tr1) as [tr2 H2].
    exists tr2. simpl. unfold bind. now rewrite H1.
Qed.

(** X6.  On a console that encodes every text, a batch of well-formed
    records is always processed to its end and moves the cursor forward
    by its length, whatever the oracle answers: there no answer of the
    oracle can stop the loop.  (On a console that refuses a text, the
    message of line 124 can: see X3.) *)
Theorem well_formed_batch_advances
  (E : env) (i : Z) (tr : trace) (l : list json) :
  (forall s, stdout_encodes E s = true) ->
  fetched_articles E i tr = Some (Ret (JArr l)) ->
  l <> [] ->
  forallb well_formed_record l = true ->
  exists tr',
    loop_body E i tr = (Ret (inr (i + Z.of_nat (List.length l))), tr').
Proof.
  intros Henc Hf Hl Hwf. rewrite loop_body_cases, Hf.
  destruct l as [| x l]; [contradiction |]. simpl truthy. cbv iota.
  destruct (for_each_process_article_total E (x :: l) Henc Hwf
              (tr ++ [ESearch (undecided_payload i batch_size)])) as [tr' H].
  rewrite H. now exists tr'.
Qed.

(** X7.  One iteration that goes on: its calls are the fetch at the
    cursor with the batch size 50 and then, for the fetched records in
    the order of the fetch, one block of calls each and nothing else.
    The block of a record is: the call of the oracle, to the screening
    model with the record's title and first abstract, made when neither
    is empty; then one POST for the record's id, whose plan is one of the
    four plans of the writer; then the delay of six seconds. *)
Theorem batch_is_written_in_fetch_order
  (E : env) (i j : Z) (tr tr' : trace) :
  loop_body E i tr = (Ret (inr j), tr') ->
  exists (l : list json) (blocks : list trace),
    fetched_articles E i tr = Some (Ret (JArr l))
    /\ tr' = tr ++ ESearch (undecided_payload i 50) :: List.concat blocks
    /\ Forall2 screening_block l blocks.
Proof.
  rewrite loop_body_cases.
  destruct (fetched_articles E i tr) as [[a | e] |]; try discriminate.
  destruct (truthy a); try discriminate.
  destruct a as [| b | z | s | l | kv]; try discriminate.
  destruct (for_each (process_article E) l _) as [[[] | e] tr2] eqn:Hl; try discriminate.
  intro H. inversion H. subst.
  apply for_each_process_article_blocks in Hl.
  destruct Hl as [blocks [-> Hblocks]].
  exists l, blocks. rewrite <- app_assoc. now repeat split.
Qed.

Lemma loop_body_counts (E : env) (i j : Z) (tr tr' : trace) :
  loop_body E i tr = (Ret (inr j), tr') ->
  Z.of_nat (List.length (post_targets tr'))
    = Z.of_nat (List.length (post_targets tr)) + (j - i)
  /\ Z.of_nat (List.length (sleeps tr'))
     = Z.of_nat (List.length (sleeps tr)) + (j - i).
Proof.
  rewrite loop_body_cases.
  destruct (fetched_articles E i tr) as [[a | e] |]; try discriminate.
  destruct (truthy a); try discriminate.
  destruct a as [| b | z | s | l | kv]; try discriminate.
  destruct (for_each (process_article E) l _) as [[[] | e] tr2] eqn:Hl; try discriminate.
  intro H. inversion H. subst.
  apply for_each_process_article_shape in Hl.
  destruct Hl as [evs [-> [P [S _]]]].
  rewrite !post_targets_app, !sleeps_app, !length_app, P, S, !length_map. simpl. lia.
Qed.

(** X8.  The cursor counts the decisions written.  In every state of a
    run that has not crashed, the number of POST calls made since the
    start equals the distance the cursor has moved, and as many delays
    have been taken: every record the cursor has passed was written once
    and no other write was made. *)
Theorem cursor_counts_posts (E : env) (fuel : nat) (i : Z) (tr : trace) :
  match main_loop E fuel i tr with
  | Finished _ j tr' | Running j tr' =>
      Z.of_nat (List.length (post_targets tr'))
        = Z.of_nat (List.length (post_targets tr)) + (j - i)
      /\ Z.of_nat (List.length (sleeps tr'))
         = Z.of_nat (List.length (sleeps tr)) + (j - i)
  | Crashed _ _ => True
  end.
Proof.
  revert i tr. induction fuel as [| fuel IH]; intros i tr; simpl; [lia |].
  destruct (loop_body E i tr) as [[[why | next] | e] tr1] eqn:Hb; [| | exact I].
  - apply loop_body_break in Hb. destruct Hb as [-> _].
    rewrite !post_targets_app, !sleeps_app, !length_app. simpl. lia.
  - apply loop_body_counts in Hb. destruct Hb as [Hp Hs].
    specialize (IH next tr1). destruct (main_loop E fuel next tr1); trivial; lia.
Qed.

(** ** The duplicates script *)

(** X9.  What the oracle's verdict becomes.  When both abstracts are
    there and the cleaned text parses to an object, the comparison
    returns the object's [is_duplicate] ([False] when absent) and
    [reason] (a stock sentence when absent).  Line 139 then prints both:
    when the console can show them, the record is patched with
    [duplicate_action] 1 when [is_duplicate] is truthy and 2 otherwise,
    and the delay follows; when it cannot, the body raises
    [UnicodeEncodeError] after the call of the oracle and sends no PATCH.
    The choice of the action is by truth value, so any non-empty string,
    the string [false] included, resolves the record as a duplicate. *)
Theorem verdict_follows_is_duplicate
  (E : env) (anchor_abstract other_article : json) (tr : trace) (text : string)
  (kv : list (string * json)) :
  readable other_article = true ->
  both_present anchor_abstract (abstract_of other_article) = true ->
  generate_content E tr duplicate_model
    (DuplicatePrompt anchor_abstract (abstract_of other_article)) = Text (Some text) ->
  json_loads E (clean_response text) = Some (JObj kv) ->
  let is_duplicate :=
    match dict_lookup kv "is_duplicate" with Some v => v | None => JBool false end in
  let reason :=
    match dict_lookup kv "reason" with
    | Some v => v
    | None => JStr "No reason provided."
    end in
  let tr1 := tr ++ [EGenerate duplicate_model
                      (DuplicatePrompt anchor_abstract (abstract_of other_article))] in
  are_abstracts_duplicates E anchor_abstract (abstract_of other_article) tr
    = (Ret (is_duplicate, reason), tr1)
  /\ compare_member E anchor_abstract other_article tr
     = (if prints_ok E is_duplicate && prints_ok E reason
        then (Ret tt,
              tr1 ++ [EPatch (id_of other_article)
                        (duplicate_payload (if truthy is_duplicate then 1 else 2));
                      ESleep 5])
        else (Raise UnicodeEncodeError, tr1))
  /\ (forall s, dict_lookup kv "is_duplicate" = Some (JStr s) -> s <> "" ->
                truthy is_duplicate = true).
Proof.
  intros Hr Hboth Hgen Hparse is_duplicate reason tr1.
  destruct (readable_reads _ Hr) as [Hid Habs].
  unfold both_present in Hboth. apply andb_prop in Hboth. destruct Hboth as [T1 T2].
  assert (Hrun : are_abstracts_duplicates E anchor_abstract (abstract_of other_article) tr
                 = (Ret (is_duplicate, reason), tr1)).
  { unfold are_abstracts_duplicates, are_abstracts_duplicates_try, loads. run_goal.
    rewrite T1, T2. simpl. rewrite Hgen, Hparse. reflexivity. }
  repeat split.
  - exact Hrun.
  - unfold compare_member, resolve_duplicate_status. run_goal.
    rewrite Hid, Habs, Hrun. cbv iota beta.
    change (forallb (prints_ok E) [is_duplicate; reason])
      with (prints_ok E is_duplicate && (prints_ok E reason && true)).
    rewrite andb_true_r.
    destruct (prints_ok E is_duplicate && prints_ok E reason); [| reflexivity].
    now rewrite <- !app_assoc.
  - intros s Hs Hne. subst is_duplicate. rewrite Hs. simpl.
    destruct (String.eqb_spec s ""); [contradiction | reflexivity].
Qed.


(** X11.  The whole duplicates script on a console that encodes every
    text, for a master list of records that can be grouped and read: its
    calls are the one SEARCH and then, for each member after the first of
    each cluster of two or more, cluster after cluster and member after
    member, one block and nothing else.  The block of a member is: the
    call of the oracle on the anchor's abstract and the member's, made
    when neither is empty; then one PATCH for that member, whose action
    follows the verdict of that comparison; then the delay of five
    seconds.  No further SEARCH and no POST is made. *)
Theorem duplicates_script_patches_members
  (E : env) (fs : files) (tr : trace) (auth text : string) (headers : json)
  (l : list json) :
  (forall s, stdout_encodes E s = true) ->
  auth_file fs = Some auth -> headers_file fs = Some text ->
  json_loads E text = Some headers ->
  new_context E auth headers = Ret tt ->
  master_list E tr = Some (JArr l) ->
  forallb groupable l = true ->
  forallb readable (filter clustered l) = true ->
  exists (cl : clusters) (evs : trace),
    group_by_cluster l = Ret cl
    /\ resolve_duplicates_main E fs tr = (Ret tt, tr ++ ESearch duplicates_payload :: evs)
    /\ resolves E (tr ++ [ESearch duplicates_payload]) (flat_map comparisons cl) evs
    /\ patch_targets evs = map id_of (flat_map compared cl).
Proof.
  intros Henc Ha Hh Hl Hc Hm Hg Hr.
  destruct (group_from_spec l [] Hg) as [cl [Hrun [Hperm _]]]. simpl in Hperm.
  assert (Hread : Forall (fun c => Forall (fun m => readable m = true) (snd c)) cl).
  { apply Forall_forall. intros c Hin. apply Forall_forall. intros m Hmem.
    assert (Hf : In m (filter clustered l)).
    { apply (Permutation_in m Hperm). unfold members. apply in_concat.
      exists (snd c). split; [now apply in_map | exact Hmem]. }
    rewrite forallb_forall in Hr. now apply Hr. }
  destruct (resolves_total E (flat_map comparisons cl) Henc
              (tr ++ [ESearch duplicates_payload])) as [evs Hres].
  pose proof (process_clusters_resolves E cl Hread _ _ Hres) as Hproc.
  exists cl, evs. split; [exact Hrun |]. split; [| split; [exact Hres |]].
  2:{ rewrite (resolves_patch_targets E _ _ _ Hres), <- comparisons_others.
      now rewrite map_map. }
  unfold resolve_duplicates_main, fetch_all_unresolved_duplicates, loads,
    resolve_clusters, group_by_cluster. run_goal.
  rewrite Ha, Hh, Hl, Hc. unfold master_list in Hm.
  destruct (api_fetch E tr duplicates_payload) as [r |]; [| discriminate].
  destruct (ok r); [| discriminate].
  destruct (json_loads E (body r)) as [v |]; [| discriminate].
  destruct v as [| b | z | s | l0 | kv]; try discriminate.
  destruct (dict_lookup kv "data") as [d |] eqn:Hd; [| discriminate].
  destruct (truthy d) eqn:Td; [| discriminate]. inversion Hm. subst d.
  assert (Hkv : truthy (JObj kv) = true).
  { destruct kv; [discriminate | reflexivity]. }
  rewrite Hkv. simpl. rewrite Hd, Td. simpl. rewrite Hrun, Hproc.
  now rewrite <- app_assoc.
Qed.

(** X12.  A [headers.json] that does not parse is not treated as
    missing: both scripts read it with [json.load] outside of any [try],
    so [main] raises before the probe is sent, and never gets to the
    browser setup, and the duplicates script raises before its fetch. *)
Theorem corrupt_headers_file_raises
  (E : env) (fs : files) (tr : trace) (auth text : string) :
  auth_file fs = Some auth -> headers_file fs = Some text ->
  json_loads E text = None ->
  should_run_setup E fs tr = (Raise JSONDecodeError, tr)
  /\ resolve_duplicates_main E fs tr = (Raise JSONDecodeError, tr).
Proof.
  intros Ha Hh Hl.
  unfold should_run_setup, resolve_duplicates_main, loads. run_goal.
  now rewrite Ha, Hh, Hl.
Qed.

(** ** The order inside the clusters *)

Lemma in_cluster_spec (k : option key) (a : json) :
  in_cluster k a = true <-> clustered a = true /\ article_key a = k.
Proof.
  unfold in_cluster. destruct (clustered a); simpl.
  - destruct (key_eq_dec (article_key a) k) as [He | Hne].
    + split; auto.
    + split; [discriminate | intros [_ H]; contradiction].
  - split; [discriminate | intros [H _]; discriminate].
Qed.

Lemma filter_none {A} (f : A -> bool) (l : list A) :
  (forall x, In x l -> f x = false) -> filter f l = [].
Proof.
  induction l as [| x l IH]; intro H; simpl; [reflexivity |].
  rewrite (H x (or_introl eq_refl)). apply IH. intros y Hy. apply H. now right.
Qed.

Lemma cluster_append_new (cl : clusters) (cluster_id : json) (k : key) (a : json) :
  ~ In (Some k) (keys cl) ->
  cluster_append cl cluster_id k a = cl ++ [(cluster_id, [a])].
Proof.
  induction cl as [| c rest IH]; intro Hnin; simpl; [reflexivity |].
  destruct (has_key k c) eqn:Hc.
  - apply has_key_spec in Hc. elim Hnin. now left.
  - rewrite IH; [reflexivity |]. intro H. apply Hnin. now right.
Qed.

Lemma cluster_append_old (cl : clusters) (cluster_id : json) (k : key) (a : json) :
  NoDup (keys cl) -> In (Some k) (keys cl) ->
  cluster_append cl cluster_id k a = map (append_if_key k a) cl.
Proof.
  induction cl as [| c rest IH]; intros Hnd Hin; [contradiction |].
  simpl. unfold append_if_key at 1. inversion Hnd as [| ? ? Hc Hrest]. subst.
  destruct (has_key k c) eqn:Hk.
  - f_equal. apply has_key_spec in Hk.
    rewrite <- (map_id rest) at 1. apply map_ext_in. intros c' Hc'.
    unfold append_if_key. destruct (has_key k c') eqn:Hk'; [| reflexivity].
    apply has_key_spec in Hk'. elim Hc. rewrite Hk, <- Hk'. now apply in_map.
  - f_equal. apply IH; [exact Hrest |].
    destruct Hin as [Hin | Hin]; [| exact Hin].
    apply has_key_spec in Hin. congruence.
Qed.

Lemma append_if_key_entry_key (k : key) (a : json) (c : json * list json) :
  entry_key (append_if_key k a c) = entry_key c.
Proof. unfold append_if_key. now destruct (has_key k c). Qed.

Lemma group_step_grouped (cl : clusters) (done : list json) (a : json) :
  grouped cl done -> groupable a = true ->
  exists cl', group_step cl a = Ret cl' /\ grouped cl' (done ++ [a]).
Proof.
  intros [Hnd [Hmem Hall]] Hg. unfold groupable in Hg.
  destruct (cluster_id_of a) as [cid | e] eqn:Hcid; [| discriminate].
  assert (Hc : clustered a = truthy cid) by (unfold clustered; now rewrite Hcid).
  assert (Hak : article_key a = key_of cid) by (unfold article_key; now rewrite Hcid).
  unfold group_step. rewrite Hcid. simpl obind.
  destruct (truthy cid) eqn:T.
  - destruct (key_of cid) as [k |] eqn:Hk; [| discriminate].
    assert (Hin_a : in_cluster (Some k) a = true) by (apply in_cluster_spec; now split).
    eexists. split; [reflexivity |].
    destruct (in_dec key_eq_dec (Some k) (keys cl)) as [Hin | Hnin].
    + rewrite (cluster_append_old cl cid k a Hnd Hin).
      assert (Hkeys : keys (map (append_if_key k a) cl) = keys cl).
      { unfold keys. rewrite map_map. apply map_ext. apply append_if_key_entry_key. }
      split; [now rewrite Hkeys |]. split.
      * intros c' Hc'. apply in_map_iff in Hc'. destruct Hc' as [c [<- Hcin]].
        destruct (Hmem c Hcin) as [Hsnd [anchor [others [Hhd Hid]]]].
        rewrite append_if_key_entry_key, filter_app. unfold append_if_key.
        destruct (has_key k c) eqn:Hkc.
        -- apply has_key_spec in Hkc. simpl. rewrite Hkc, Hin_a, <- Hkc, <- Hsnd.
           split; [reflexivity |]. exists anchor, (others ++ [a]).
           rewrite Hhd. now split.
        -- assert (Hno : in_cluster (entry_key c) a = false).
           { destruct (in_cluster (entry_key c) a) eqn:Hi; [| reflexivity].
             apply in_cluster_spec in Hi. destruct Hi as [_ Hi].
             assert (Hhk : has_key k c = true)
               by (apply has_key_spec; congruence).
             congruence. }
           simpl. rewrite Hno, app_nil_r. split; [exact Hsnd |]. now exists anchor, others.
      * intros x Hx Hcx. rewrite Hkeys. apply in_app_or in Hx.
        destruct Hx as [Hx | [<- | []]]; [now apply Hall |]. now rewrite Hak.
    + rewrite (cluster_append_new cl cid k a Hnin).
      assert (Hkeys : keys (cl ++ [(cid, [a])]) = keys cl ++ [Some k]).
      { unfold keys. rewrite map_app. simpl. unfold entry_key at 2. simpl. now rewrite Hk. }
      split.
      { rewrite Hkeys. apply NoDup_app; [exact Hnd | repeat constructor; intros [] |].
        intros x Hx [<- | []]. contradiction. }
      split.
      * intros c' Hc'. apply in_app_or in Hc'. rewrite filter_app.
        destruct Hc' as [Hcin | [<- | []]].
        -- destruct (Hmem c' Hcin) as [Hsnd Hhd].
           assert (Hno : in_cluster (entry_key c') a = false).
           { destruct (in_cluster (entry_key c') a) eqn:Hi; [| reflexivity].
             apply in_cluster_spec in Hi. destruct Hi as [_ Hi].
             elim Hnin. rewrite <- Hak, Hi. unfold keys. now apply in_map. }
           simpl. rewrite Hno, app_nil_r. now split.
        -- unfold entry_key. simpl fst. rewrite Hk. simpl snd.
           rewrite (filter_none (in_cluster (Some k)) done).
           ++ simpl. rewrite Hin_a. split; [reflexivity |]. now exists a, [].
           ++ intros x Hx. destruct (in_cluster (Some k) x) eqn:Hi; [| reflexivity].
              apply in_cluster_spec in Hi. destruct Hi as [Hcx Hkx].
              elim Hnin. rewrite <- Hkx. now apply Hall.
      * intros x Hx Hcx. rewrite Hkeys. apply in_or_app. apply in_app_or in Hx.
        destruct Hx as [Hx | [<- | []]]; [left; now apply Hall |].
        right. left. now rewrite Hak.
  - exists cl. split; [reflexivity |].
    assert (Hno : forall k, in_cluster k a = false).
    { intro k. unfold in_cluster. now rewrite Hc. }
    split; [exact Hnd |]. split.
    + intros c Hcin. rewrite filter_app. simpl. rewrite Hno, app_nil_r. now apply Hmem.
    + intros x Hx Hcx. apply in_app_or in Hx.
      destruct Hx as [Hx | [<- | []]]; [now apply Hall | congruence].
Qed.

Lemma group_from_grouped (rest : list json) :
  forall (cl : clusters) (done : list json),
    grouped cl done -> forallb groupable rest = true ->
    exists cl', group_from cl rest = Ret cl' /\ grouped cl' (done ++ rest).
Proof.
  induction rest as [| a rest IH]; intros cl done Hgr Hall.
  - exists cl. rewrite app_nil_r. now split.
  - simpl in Hall. apply andb_prop in Hall. destruct Hall as [Ha Hrest].
    destruct (group_step_grouped cl done a Hgr Ha) as [cl1 [Hstep Hgr1]].
    destruct (IH cl1 (done ++ [a]) Hgr1 Hrest) as [cl' [Hrun Hgr']].
    exists cl'. change (group_from cl (a :: rest)) with
      (let? cl0 := group_step cl a in group_from cl0 rest).
    rewrite Hstep. simpl obind. split; [exact Hrun |].
    now rewrite <- app_assoc in Hgr'.
Qed.

(** X13.  The order inside the clusters.  On records that can be
    grouped, each cluster holds exactly the fetched records that carry
    its key, in the order of the fetch; it is never empty, and it is
    stored under the [cluster_id] of its first member: the anchor of a
    cluster is the first record of the fetched sequence with that
    cluster id. *)
Theorem cluster_members_in_fetch_order (all_articles : list json) :
  forallb groupable all_articles = true ->
  exists cl : clusters,
    group_by_cluster all_articles = Ret cl
    /\ forall c, In c cl ->
         snd c = filter (in_cluster (entry_key c)) all_articles
         /\ exists anchor others,
              snd c = anchor :: others /\ cluster_id_of anchor = Ret (fst c).
Proof.
  intro Hall.
  assert (H0 : grouped [] []).
  { split; [constructor |]. split; [intros c [] | intros a []]. }
  destruct (group_from_grouped all_articles [] [] H0 Hall) as [cl [Hrun [_ [Hmem _]]]].
  exists cl. split; [exact Hrun | exact Hmem].
Qed.

(** ** The clean-up of the oracle's text *)

Lemma starts_with_cons (a b : ascii) (p s : string) :
  starts_with (String a p) (String b s) = Ascii.eqb a b && starts_with p s.
Proof. reflexivity. Qed.

Lemma contains_cons (p : string) (c : ascii) (s : string) :
  contains p (String c s) = starts_with p (String c s) || contains p s.
Proof. reflexivity. Qed.

Lemma remove_from_absent (old s : string) :
  contains old s = false -> remove_from old O s = s.
Proof.
  induction s as [| c rest IH]; intro H; [reflexivity |].
  cbn [contains] in H. apply orb_false_iff in H. destruct H as [Hs Hc].
  cbn [remove_from]. rewrite Hs. now rewrite IH.
Qed.

Lemma starts_with_fence_json (s : string) :
  starts_with fence_json s = true -> starts_with fence s = true.
Proof.
  destruct s as [| c1 [| c2 [| c3 s]]]; simpl; try discriminate.
  - now rewrite andb_false_r.
  - rewrite !andb_false_r. discriminate.
  - intro H. apply andb_prop in H. destruct H as [H1 H].
    apply andb_prop in H. destruct H as [H2 H].
    apply andb_prop in H. destruct H as [H3 _]. now rewrite H1, H2, H3.
Qed.

Lemma contains_fence_json (s : string) :
  contains fence s = false -> contains fence_json s = false.
Proof.
  induction s as [| c rest IH]; intro H.
  - reflexivity.
  - cbn [contains] in H |- *. apply orb_false_iff in H. destruct H as [Hs Hc].
    rewrite (IH Hc), orb_false_r.
    destruct (starts_with fence_json (String c rest)) eqn:Hj; [| reflexivity].
    apply starts_with_fence_json in Hj. congruence.
Qed.

Lemma lstrip_head (s : string) :
  lstrip s = EmptyString
  \/ exists c r, lstrip s = String c r /\ is_space c = false.
Proof.
  induction s as [| c rest IH]; [now left |]. cbn [lstrip].
  destruct (is_space c) eqn:Hc; [exact IH |]. right. now exists c, rest.
Qed.

Lemma rstrip_cons (c : ascii) (s : string) :
  rstrip (String c s) =
    match rstrip s with
    | EmptyString => if is_space c then EmptyString else String c EmptyString
    | r => String c r
    end.
Proof. reflexivity. Qed.

Lemma rstrip_idempotent (s : string) : rstrip (rstrip s) = rstrip s.
Proof.
  induction s as [| c rest IH]; [reflexivity |]. rewrite rstrip_cons.
  destruct (rstrip rest) as [| d r] eqn:Hr.
  - destruct (is_space c) eqn:Hc; [reflexivity |]. rewrite rstrip_cons. simpl rstrip.
    now rewrite Hc.
  - rewrite rstrip_cons, IH. reflexivity.
Qed.

Lemma lstrip_rstrip_lstrip (s : string) :
  lstrip (rstrip (lstrip s)) = rstrip (lstrip s).
Proof.
  destruct (lstrip_head s) as [-> | [c [r [-> Hc]]]]; [reflexivity |].
  rewrite rstrip_cons. destruct (rstrip r); rewrite ?Hc; cbn [lstrip]; now rewrite Hc.
Qed.

Lemma strip_idempotent (s : string) : strip (strip s) = strip s.
Proof.
  unfold strip. now rewrite lstrip_rstrip_lstrip, rstrip_idempotent.
Qed.

(** X14.  A text with no markdown fence is only stripped of its outer
    white space: when the stripped text holds no triple backquote, the
    clean-up returns the stripped text, and cleaning it again changes
    nothing. *)
Theorem clean_response_without_fence (text : string) :
  contains fence (strip text) = false ->
  clean_response text = strip text
  /\ clean_response (clean_response text) = clean_response text.
Proof.
  intro H.
  assert (Hc : clean_response text = strip text).
  { unfold clean_response, remove_all.
    rewrite (remove_from_absent fence_json) by now apply contains_fence_json.
    rewrite (remove_from_absent fence) by exact H. apply strip_idempotent. }
  split; [exact Hc |]. rewrite Hc. unfold clean_response, remove_all.
  rewrite strip_idempotent.
  rewrite (remove_from_absent fence_json) by now apply contains_fence_json.
  rewrite (remove_from_absent fence) by exact H. apply strip_idempotent.
Qed.

Lemma no_backquote_fence_json (body : string) :
  no_backquote body = true ->
  contains fence_json (body ++ fence)%string = false.
Proof.
  induction body as [| c r IH]; intro H; [reflexivity |].
  cbn [no_backquote] in H. apply andb_prop in H. destruct H as [Hc Hr].
  change (String c r ++ fence)%string with (String c (r ++ fence)%string).
  cbn [contains]. rewrite (IH Hr), orb_false_r.
  unfold fence_json. cbn [starts_with]. unfold backquote in Hc.
  rewrite Ascii.eqb_sym. apply negb_true_iff in Hc. now rewrite Hc.
Qed.

Lemma no_backquote_remove_fence (body : string) :
  no_backquote body = true ->
  remove_from fence O (body ++ fence)%string = body.
Proof.
  induction body as [| c r IH]; intro H; [reflexivity |].
  cbn [no_backquote] in H. apply andb_prop in H. destruct H as [Hc Hr].
  change (String c r ++ fence)%string with (String c (r ++ fence)%string).
  cbn [remove_from]. unfold fence at 1. cbn [starts_with]. unfold backquote in Hc.
  rewrite Ascii.eqb_sym. apply negb_true_iff in Hc. rewrite Hc. simpl andb. cbv iota.
  now rewrite IH.
Qed.

Lemma no_backquote_json_word (body : string) :
  no_backquote body = true ->
  starts_with "json" body = false ->
  starts_with "json" (body ++ fence)%string = false.
Proof.
  destruct body as [| c1 [| c2 [| c3 [| c4 b]]]]; simpl; intros Hn H; try reflexivity;
    try assumption; now rewrite ?andb_false_r.
Qed.

(** X15.  A fenced block is unwrapped.  When the stripped text is a body
    without backquotes between an opening fence, with or without the word
    [json], and a closing fence, the clean-up returns the stripped body:
    this is the text handed to [json.loads]. *)
Theorem clean_response_unwraps_fenced_block (text body : string) :
  no_backquote body = true ->
  strip text = (fence_json ++ body ++ fence)%string
  \/ (strip text = (fence ++ body ++ fence)%string
      /\ starts_with "json" body = false) ->
  clean_response text = strip body.
Proof.
  intros Hn [H | [H Hj]]; unfold clean_response, remove_all; rewrite H.
  - change (remove_from fence_json O (fence_json ++ body ++ fence)%string)
      with (remove_from fence_json O (body ++ fence)%string).
    rewrite (remove_from_absent fence_json) by now apply no_backquote_fence_json.
    now rewrite no_backquote_remove_fence.
  - assert (Hc : contains fence_json (fence ++ body ++ fence)%string = false).
    { change (fence ++ body ++ fence)%string
        with (String backquote (String backquote (String backquote
                (body ++ fence)%string))).
      rewrite !contains_cons, (no_backquote_fence_json body Hn).
      change (starts_with fence_json
                (String backquote (String backquote (String backquote
                   (body ++ fence)%string))))
        with (starts_with "json" (body ++ fence)%string).
      rewrite (no_backquote_json_word body Hn Hj).
      destruct body as [| c r]; [reflexivity |].
      cbn [no_backquote] in Hn. apply andb_prop in Hn. destruct Hn as [Hc _].
      apply negb_true_iff in Hc. rewrite Ascii.eqb_sym in Hc.
      change (String c r ++ fence)%string with (String c (r ++ fence)%string).
      unfold fence_json, backquote in *. rewrite !starts_with_cons, Hc.
      now rewrite !andb_false_r. }
    rewrite (remove_from_absent fence_json) by exact Hc.
    change (remove_from fence O (fence ++ body ++ fence)%string)
      with (remove_from fence O (body ++ fence)%string).
    now rewrite no_backquote_remove_fence.
Qed.

(** ** The browser setup *)

Ltac setup_cases B :=
  repeat match goal with
         | |- context [step_raises B ?s] =>
             let H := fresh "Hstep" in destruct (step_raises B s) eqn:H
         end.

Ltac setup_run :=
  unfold perform_full_setup, finally, and_then, await_headers, attempt, login_steps;
  cbn [fold_right app fst snd].

(** X16.  The browser is closed on every path through the [try]: once
    [launch], [new_context] and [new_page] have returned, [browser.close]
    is called exactly once, as the last step, whether the login raised,
    the wait timed out, a write raised or all went well.  When one of the
    three first calls raises, it is never called: they stand before the
    [try]. *)
Theorem browser_closed_on_every_path (B : browser) (review_id : string) :
  let log := snd (perform_full_setup B review_id []) in
  (step_raises B Launch = None /\ step_raises B NewContext = None
   /\ step_raises B NewPage = None ->
   exists pre, log = pre ++ [Close] /\ existsb is_close pre = false)
  /\ (step_raises B Launch <> None \/ step_raises B NewContext <> None
      \/ step_raises B NewPage <> None ->
      existsb is_close log = false
      /\ fst (perform_full_setup B review_id []) <> SetupDone).
Proof.
  cbv zeta. split.
  - intros [H1 [H2 H3]]. setup_run. rewrite H1, H2, H3. cbn [app].
    destruct (fst (observe review_id (seen B) Pending)) as [| h |];
      setup_cases B; cbn [app fst snd];
      match goal with
      | |- exists pre, ?l = _ /\ _ => exists (removelast l); split; reflexivity
      end.
  - intro H. setup_run.
    destruct (step_raises B Launch) eqn:H1; [split; [reflexivity | discriminate] |].
    destruct (step_raises B NewContext) eqn:H2; [split; [reflexivity | discriminate] |].
    destruct (step_raises B NewPage) eqn:H3; [split; [reflexivity | discriminate] |].
    destruct H as [H | [H | H]]; now elim H.
Qed.

Lemma observe_result (review_id : string) (reqs : list request) :
  (fst (observe review_id reqs Pending) = Pending
   /\ forallb (fun r => negb (qualifies review_id r)) reqs = true)
  \/ exists pre req post,
       reqs = pre ++ req :: post
       /\ forallb (fun r => negb (qualifies review_id r)) pre = true
       /\ qualifies review_id req = true
       /\ fst (observe review_id reqs Pending)
          = Resolved (discovered_headers (all_headers req)).
Proof.
  destruct (observe_pending review_id reqs)
    as [[Hobs Hall] | [pre [req [post [Hreqs [Hpre [Hreq Hobs]]]]]]].
  - left. now rewrite Hobs.
  - right. exists pre, req, post. now rewrite Hobs.
Qed.

(** X17.  What the setup writes.  [headers.json] is written only after
    every step before it returned and a request qualified, and what is
    dumped is the filtered headers of the first request that qualified;
    the browser state is saved only after that dump returned; a setup
    that returns has made both writes and closed the browser; and when no
    request qualifies before the time-out nothing is written and the
    setup does not return. *)
Theorem credentials_written_only_after_capture (B : browser) (review_id : string) :
  let o := fst (perform_full_setup B review_id []) in
  let log := snd (perform_full_setup B review_id []) in
  (forall h, In (DumpHeaders h) log ->
     Forall (fun s => step_raises B s = None) ([Launch; NewContext; NewPage] ++ login_steps)
     /\ exists pre req post,
          seen B = pre ++ req :: post
          /\ forallb (fun r => negb (qualifies review_id r)) pre = true
          /\ qualifies review_id req = true
          /\ h = discovered_headers (all_headers req))
  /\ (In StorageState log ->
      exists h, In (DumpHeaders h) log /\ step_raises B (DumpHeaders h) = None)
  /\ (o = SetupDone ->
      exists h, log = [Launch; NewContext; NewPage] ++ login_steps
                      ++ [DumpHeaders h; StorageState; Close])
  /\ (forallb (fun r => negb (qualifies review_id r)) (seen B) = true ->
      existsb is_write log = false /\ o <> SetupDone).
Proof.
  cbv zeta.
  destruct (observe_result review_id (seen B))
    as [[Hobs Hall] | [pre [req [post [Hreqs [Hpre [Hreq Hobs]]]]]]].
  - setup_run. rewrite Hobs. setup_cases B; cbn [app fst snd];
      (split; [| split; [| split]];
       [ intros h Hin; simpl in Hin; intuition discriminate
       | intro Hin; simpl in Hin; intuition discriminate
       | discriminate
       | intros _; split; [reflexivity | discriminate] ]).
  - assert (Hnot : forallb (fun r => negb (qualifies review_id r)) (seen B) = true -> False).
    { intro Hall. rewrite Hreqs, forallb_app in Hall. simpl in Hall.
      rewrite Hreq in Hall. simpl in Hall. now rewrite andb_false_r in Hall. }
    setup_run. rewrite Hobs. unfold and_then, attempt.
    setup_cases B; cbn [app fst snd];
      (split;
       [ intros h Hin; simpl in Hin;
         repeat match goal with H : _ \/ _ |- _ => destruct H end;
         try discriminate; try contradiction;
         match goal with
         | H : DumpHeaders _ = DumpHeaders _ |- _ => inversion H; subst; clear H
         end;
         (split; [repeat constructor; assumption
                 | exists pre, req, post; repeat split; assumption])
       | split;
         [ intro Hin; simpl in Hin;
           repeat match goal with H : _ \/ _ |- _ => destruct H end;
           try discriminate; try contradiction;
           eexists; (split; [simpl; do 8 right; left; reflexivity | eassumption])
         | split;
           [ intro H; try discriminate H; eexists; reflexivity
           | intro Hall; now elim Hnot ] ] ]).
Qed.

(** * The further properties at concrete inputs *)





(** X5 on a batch that starts with a record whose title is [null] *)
Lemma unsliceable_title_stops_the_run_witness :
  process_article null_title_env null_title_record [] = (Raise TypeError, [])
  /\ main_loop null_title_env 3 0 [] =
       Crashed TypeError ([] ++ [ESearch (undecided_payload 0 batch_size)]).
Proof.
  apply (unsliceable_title_stops_the_run null_title_env 0 []
           [("id", JNum 5); ("title", JNull);
            ("abstracts", JArr [JObj [("content", JStr "A")]])]
           JNull [] 2); try reflexivity.
  left. reflexivity.
Defined.

(** X6 and X7 on the batch of one record *)
Lemma well_formed_batch_advances_witness :
  exists tr',
    loop_body one_batch_env 0 [] = (Ret (inr (0 + Z.of_nat (List.length [record1]))), tr').
Proof.
  apply (well_formed_batch_advances one_batch_env 0 [] [record1]).
  - intro s. reflexivity.
  - reflexivity.
  - discriminate.
  - reflexivity.
Defined.

Lemma batch_is_written_in_fetch_order_witness :
  exists (l : list json) (blocks : list trace),
    fetched_articles one_batch_env 0 [] = Some (Ret (JArr l))
    /\ snd (loop_body one_batch_env 0 [])
       = [] ++ ESearch (undecided_payload 0 50) :: List.concat blocks
    /\ Forall2 screening_block l blocks.
Proof.
  apply (batch_is_written_in_fetch_order one_batch_env 0 1 []
           (snd (loop_body one_batch_env 0 []))).
  reflexivity.
Defined.

(** X8 on the run of that example: one POST, and the cursor at 1 *)
Example one_batch_counts :
  main_loop one_batch_env 5 0 [] = main_loop one_batch_env 2 0 []
  /\ match main_loop one_batch_env 5 0 [] with
     | Finished _ j tr' => j = 1 /\ post_targets tr' = [JNum 1] /\ sleeps tr' = [6]
     | _ => False
     end.
Proof. repeat split. Qed.

(** X9 when the oracle answers [is_duplicate] with the string [false]:
    record 2 is patched as a duplicate. *)
Lemma verdict_follows_is_duplicate_witness :
  are_abstracts_duplicates string_false_env (JStr "A")
    (abstract_of (clustered_article 2 "B" (JStr "c1"))) []
    = (Ret (JStr "false", JStr "No reason provided."),
       [] ++ [EGenerate duplicate_model
                (DuplicatePrompt (JStr "A")
                   (abstract_of (clustered_article 2 "B" (JStr "c1"))))])
  /\ compare_member string_false_env (JStr "A") (clustered_article 2 "B" (JStr "c1")) []
     = (Ret tt,
        ([] ++ [EGenerate duplicate_model
                  (DuplicatePrompt (JStr "A")
                     (abstract_of (clustered_article 2 "B" (JStr "c1"))))])
        ++ [EPatch (id_of (clustered_article 2 "B" (JStr "c1")))
              (duplicate_payload (if truthy (JStr "false") then 1 else 2));
            ESleep 5])
  /\ (forall s, dict_lookup [("is_duplicate", JStr "false")] "is_duplicate"
                = Some (JStr s) -> s <> "" -> truthy (JStr "false") = true).
Proof.
  apply (verdict_follows_is_duplicate string_false_env (JStr "A")
           (clustered_article 2 "B" (JStr "c1")) []
           (js "{'is_duplicate': 'false'}") [("is_duplicate", JStr "false")]);
    reflexivity.
Defined.


(** X11 on the master list that holds the cluster [c1] *)
Lemma duplicates_script_patches_members_witness :
  exists (cl : clusters) (evs : trace),
    group_by_cluster cluster_c1 = Ret cl
    /\ resolve_duplicates_main cluster_c1_page_env saved_session []
       = (Ret tt, [] ++ ESearch duplicates_payload :: evs)
    /\ resolves cluster_c1_page_env ([] ++ [ESearch duplicates_payload])
         (flat_map comparisons cl) evs
    /\ patch_targets evs = map id_of (flat_map compared cl).
Proof.
  apply (duplicates_script_patches_members cluster_c1_page_env saved_session []
           "{}" (js "{'authorization':'Bearer t'}")
           (JObj [("authorization", JStr "Bearer t")]) cluster_c1);
    reflexivity.
Defined.

(** The calls of the script on that master list *)
Example cluster_c1_script_run :
  resolve_duplicates_main cluster_c1_page_env saved_session [] =
    (Ret tt,
     [ESearch duplicates_payload;
      EGenerate duplicate_model (DuplicatePrompt (JStr "A") (JStr "B"));
      EPatch (JNum 2) (duplicate_payload 1);
      ESleep 5;
      EGenerate duplicate_model (DuplicatePrompt (JStr "A") (JStr "C"));
      EPatch (JNum 3) (duplicate_payload 2);
      ESleep 5]).
Proof. reflexivity. Qed.

(** X12 with a headers file that is not JSON *)
Lemma corrupt_headers_file_raises_witness :
  should_run_setup silent_env corrupt_session [] = (Raise JSONDecodeError, [])
  /\ resolve_duplicates_main silent_env corrupt_session [] = (Raise JSONDecodeError, []).
Proof.
  apply (corrupt_headers_file_raises silent_env corrupt_session [] "{}" "oops");
    reflexivity.
Defined.

(** X13 on the cluster [c1] followed by the two records of cluster id 0 *)
Lemma cluster_members_in_fetch_order_witness :
  exists cl : clusters,
    group_by_cluster (cluster_c1 ++ cluster_zero) = Ret cl
    /\ forall c, In c cl ->
         snd c = filter (in_cluster (entry_key c)) (cluster_c1 ++ cluster_zero)
         /\ exists anchor others,
              snd c = anchor :: others /\ cluster_id_of anchor = Ret (fst c).
Proof.
  apply (cluster_members_in_fetch_order (cluster_c1 ++ cluster_zero)).
  reflexivity.
Defined.

(** X14 on a bare JSON answer with blanks around it *)
Lemma clean_response_without_fence_witness :
  clean_response "  {}  " = strip "  {}  "
  /\ clean_response (clean_response "  {}  ") = clean_response "  {}  ".
Proof.
  apply (clean_response_without_fence "  {}  "). reflexivity.
Defined.

(** X15 on a fenced answer *)
Lemma clean_response_unwraps_fenced_block_witness :
  clean_response fenced_answer = strip fenced_body.
Proof.
  apply (clean_response_unwraps_fenced_block fenced_answer fenced_body).
  - reflexivity.
  - left. reflexivity.
Defined.

Example fenced_answer_cleaned : clean_response fenced_answer = "{}".
Proof. reflexivity. Qed.

(** X16 and X17 on a setup in which no step raises *)
Example smooth_setup :
  perform_full_setup (smooth setup_requests) "42" [] =
    (SetupDone,
     [Launch; NewContext; NewPage; Goto; FillEmail; FillPassword; ClickSignIn;
      WaitForLoadState;
      DumpHeaders [("Authorization", "Bearer one"); ("X-Csrf", "k")];
      StorageState; Close]).
Proof. reflexivity. Qed.

Example setup_times_out :
  perform_full_setup (smooth []) "42" [] =
    (SetupTimeout,
     [Launch; NewContext; NewPage; Goto; FillEmail; FillPassword; ClickSignIn;
      WaitForLoadState; Close]).
Proof. reflexivity. Qed.
